(** * GAIA dashboard: the live-metrics pipeline

    A shallow embedding of the TypeScript code that feeds the dashboard:

    - [services/metricsService.ts]: [fetchLiveMetrics], [extractNumber];
    - [components/MetricsHero.tsx]: the 30 second poller around it;
    - [components/FloatingChat.tsx], [components/IntegratedChat.tsx]:
      [callAgent];
    - [services/climateAgentService.ts]: [invokeClimateAgent].

    The JavaScript builtins the code calls ([parseFloat],
    [String.prototype.match], property reads, [||], template literals) are
    modelled after ECMA-262, on the fragment the program exercises.
    Numbers are IEEE binary64 values ([spec_float] with precision 53 and
    maximal exponent 1024), strings are sequences of UTF-16 code units. *)

From Stdlib Require Import ZArith NArith List Bool Ascii String Lia.
From Stdlib Require Import SpecFloat DecimalString.
From stdpp Require Import base option list gmap.

Local Open Scope Z_scope.
Set Warnings "-register-all".

(** ** Strings *)

Module JsString.

(** A JavaScript string is a sequence of UTF-16 code units. *)
Abbreviation code_unit := N.
Abbreviation jsstring := (list code_unit).

(** ASCII source text, one code unit per character. *)
Definition js (s : string) : jsstring :=
  map N_of_ascii (list_ascii_of_string s).

Definition cu_eqb (a b : code_unit) : bool := N.eqb a b.

Fixpoint str_eqb (a b : jsstring) : bool :=
  match a, b with
  | [], [] => true
  | x :: a', y :: b' => cu_eqb x y && str_eqb a' b'
  | _, _ => false
  end.

(** [starts_with p s]: [p] is a prefix of [s]; on success the rest of [s]. *)
Fixpoint starts_with (p s : jsstring) : option jsstring :=
  match p, s with
  | [], _ => Some s
  | x :: p', y :: s' => if cu_eqb x y then starts_with p' s' else None
  | _ :: _, [] => None
  end.

Definition in_range (lo hi c : code_unit) : bool :=
  (N.leb lo c && N.leb c hi)%N.

Definition is_digit (c : code_unit) : bool := in_range 48%N 57%N c.

(** ECMA-262 LineTerminator: LF, CR, LS, PS. *)
Definition is_line_terminator (c : code_unit) : bool :=
  (N.eqb c 10 || N.eqb c 13 || N.eqb c 8232 || N.eqb c 8233)%N.

(** ECMA-262 WhiteSpace or LineTerminator: what [\s] matches and what
    [parseFloat] strips from the front of its argument. *)
Definition is_white (c : code_unit) : bool :=
  (in_range 9 13 c || N.eqb c 32 || N.eqb c 160 || N.eqb c 5760
   || in_range 8192 8202 c || N.eqb c 8232 || N.eqb c 8233
   || N.eqb c 8239 || N.eqb c 8287 || N.eqb c 12288 || N.eqb c 65279)%N.

End JsString.
Export JsString.

(** ** Numbers *)

Module JsNumber.

(** The Number type: binary64. *)
Definition number := spec_float.
Definition prec : Z := 53.
Definition emax : Z := 1024.

Definition NaN : number := S754_nan.
Definition zero : number := S754_zero false.

Definition is_nan (x : number) : bool :=
  match x with S754_nan => true | _ => false end.

(** ToBoolean on a Number: [+0], [-0] and [NaN] are falsy. *)
Definition truthy_num (x : number) : bool :=
  match x with
  | S754_zero _ | S754_nan => false
  | _ => true
  end.

(** [a || b] on Numbers. *)
Definition or_num (a b : number) : number :=
  if truthy_num a then a else b.

(** The Number value of the decimal [m * 10^e10] (negated when [neg]):
    the binary64 nearest to it, ties to even, infinite beyond the
    largest finite value.  One rounding only: an integer is rounded
    as it is, a proper fraction through the quotient and the location
    of its remainder.  This is what the engines compute; beyond 20
    significant digits ECMA-262 would also allow the neighbour. *)
Definition number_of_decimal (neg : bool) (m : N) (e10 : Z) : number :=
  match m with
  | N0 => S754_zero neg
  | Npos p =>
      if 0 <=? e10
      then binary_round prec emax neg (p * Z.to_pos (10 ^ e10)) 0
      else
        let '(q, e, l) :=
          SFdiv_core_binary prec emax (Zpos p) 0 (10 ^ (- e10)) 0 in
        binary_round_aux prec emax neg q e l
  end.

(** A decimal literal of the source text, [m * 10^e10]. *)
Definition lit (m : N) (e10 : Z) : number := number_of_decimal false m e10.

(** *** parseFloat *)

(** The longest run of decimal digits in front of [s], and the rest. *)
Fixpoint span_digits (s : jsstring) : list N * jsstring :=
  match s with
  | c :: s' =>
      if is_digit c
      then let '(ds, r) := span_digits s' in ((c - 48)%N :: ds, r)
      else ([], s)
  | [] => ([], [])
  end.

Definition digits_value (ds : list N) : N :=
  fold_left (fun acc d => (10 * acc + d)%N) ds 0%N.

Fixpoint trim_start (s : jsstring) : jsstring :=
  match s with
  | c :: s' => if is_white c then trim_start s' else s
  | [] => []
  end.

(** An optional [+] or [-]: whether the sign is [-], and the rest. *)
Definition take_sign (s : jsstring) : bool * jsstring :=
  match s with
  | c :: r =>
      if N.eqb c 43 then (false, r)
      else if N.eqb c 45 then (true, r)
      else (false, s)
  | [] => (false, [])
  end.

(** The digits after a decimal point, when there is one. *)
Definition fraction_part (s : jsstring) : list N * jsstring :=
  match s with
  | c :: r => if N.eqb c 46 then span_digits r else ([], s)
  | [] => ([], [])
  end.

(** ExponentPart: [e] or [E], an optional sign, at least one digit;
    anything else is not part of the literal and counts for nothing. *)
Definition exponent_part (s : jsstring) : Z :=
  match s with
  | c :: r =>
      if (N.eqb c 101 || N.eqb c 69)%N then
        let '(neg, r1) := take_sign r in
        let '(ds, _) := span_digits r1 in
        match ds with
        | [] => 0
        | _ => if neg then - Z.of_N (digits_value ds)
               else Z.of_N (digits_value ds)
        end
      else 0
  | [] => 0
  end.

(** [parseFloat(string)]: leading white space is dropped, the longest
    prefix that is a StrDecimalLiteral is read, and [NaN] is returned
    when there is none. *)
Definition parseFloat (s : jsstring) : number :=
  let t := trim_start s in
  let '(neg, t1) := take_sign t in
  match starts_with (js "Infinity") t1 with
  | Some _ => S754_infinity neg
  | None =>
      let '(ip, t2) := span_digits t1 in
      let '(fp, t3) := fraction_part t2 in
      match ip ++ fp with
      | [] => NaN
      | ds =>
          number_of_decimal neg (digits_value ds)
            (exponent_part t3 - Z.of_nat (length fp))
      end
  end.

End JsNumber.
Export JsNumber.

(** ** Regular expressions *)

Module RegExp.
Local Open Scope N_scope.

(** The pattern syntax the program's regular expressions are written
    in: characters, [.], classes (with [\d] and [\s]), sequence,
    alternation, the quantifiers and capturing groups.  A group carries
    its number, which the parser assigns by counting left parentheses. *)
Inductive regex : Type :=
| Empty
| Char (c : code_unit)
| Dot
| Class (invert : bool) (ranges : list (code_unit * code_unit))
| Seq (r1 r2 : regex)
| Alt (r1 r2 : regex)
| Quant (min : nat) (max : option nat) (greedy : bool) (r : regex)
| Group (i : nat) (r : regex).

(** A RegExp object: the pattern and the [i] flag.  No pattern of the
    program is global or sticky, so matching always starts at index 0. *)
Record RegExp : Type := { source : regex; ignoreCase : bool }.

Definition Star (r : regex) : regex := Quant 0 None true r.
Definition Plus (r : regex) : regex := Quant 1 None true r.
Definition Opt (r : regex) : regex := Quant 0 (Some 1%nat) true r.
Definition LazyStar (r : regex) : regex := Quant 0 None false r.
Definition digit : regex := Class false [(48, 57)]%N.
Definition space : regex :=
  Class false
    [(9, 13); (32, 32); (160, 160); (5760, 5760); (8192, 8202);
     (8232, 8233); (8239, 8239); (8287, 8287); (12288, 12288);
     (65279, 65279)]%N.

(** The characters of [s] in a row. *)
Fixpoint Lit (s : jsstring) : regex :=
  match s with
  | [] => Empty
  | [c] => Char c
  | c :: s' => Seq (Char c) (Lit s')
  end.

(** Canonicalize, for the [i] flag without the [u] flag: the upper
    case of the code unit.  ASCII is covered exactly; a code unit from
    128 on is left as it is, which is what ECMA-262 gives for the
    caseless non-ASCII characters of the program's patterns, and a
    non-ASCII character is never mapped onto an ASCII one. *)
Definition canonicalize (icase : bool) (c : code_unit) : code_unit :=
  if icase && in_range 97 122 c then (c - 32)%N else c.

Definition char_matches (icase : bool) (c x : code_unit) : bool :=
  N.eqb (canonicalize icase c) (canonicalize icase x).

(** CharacterSetMatcher: some member of the set has the canonical form
    of [x].  The members with the canonical form of an ASCII letter
    are its two cases. *)
Definition class_mem (icase : bool) (ranges : list (code_unit * code_unit))
    (x : code_unit) : bool :=
  let mem c := existsb (fun '(lo, hi) => in_range lo hi c) ranges in
  if icase
  then mem x
       || (in_range 97 122 x && mem (x - 32)%N)
       || (in_range 65 90 x && mem (x + 32)%N)
  else mem x.

(** The captures: group number to captured substring; a group that
    did not take part in the match has no entry ([undefined]). *)
Abbreviation captures := (gmap nat jsstring).
Definition result : Type := option (jsstring * captures).
Definition cont : Type := jsstring -> captures -> result.
Definition matcher : Type := jsstring -> captures -> cont -> result.

Definition or_else (a b : result) : result :=
  match a with Some z => Some z | None => b end.

Fixpoint group_ids (r : regex) : list nat :=
  match r with
  | Empty | Char _ | Dot | Class _ _ => []
  | Seq r1 r2 | Alt r1 r2 => group_ids r1 ++ group_ids r2
  | Quant _ _ _ r' => group_ids r'
  | Group i r' => i :: group_ids r'
  end.

(** The groups of a quantified atom are cleared before each round. *)
Definition reset (ids : list nat) (caps : captures) : captures :=
  fold_right (fun i c => delete i c) caps ids.

Definition max_pred (max : option nat) : option nat := Nat.pred <$> max.

Section Repeat.
Variable body : matcher.
Variable ids : list nat.
Variable greedy : bool.

(** RepeatMatcher once the minimum is met.  A round that does not
    move forward is rejected; since a matcher only moves forward,
    [fuel], the number of characters left when the quantifier is
    entered, bounds the rounds that can be accepted. *)
Fixpoint repeat_free (max : option nat) (fuel : nat)
    (s : jsstring) (caps : captures) (k : cont) {struct fuel} : result :=
  match max with
  | Some O => k s caps
  | _ =>
      let d : cont := fun s' caps' =>
        match fuel with
        | O => None
        | S fuel' =>
            if (length s' <? length s)%nat
            then repeat_free (max_pred max) fuel' s' caps' k
            else None
        end in
      if greedy
      then or_else (body s (reset ids caps) d) (k s caps)
      else or_else (k s caps) (body s (reset ids caps) d)
  end.

(** RepeatMatcher while rounds are still owed. *)
Fixpoint repeat_min (min : nat) (max : option nat)
    (s : jsstring) (caps : captures) (k : cont) {struct min} : result :=
  match min with
  | O => repeat_free max (length s) s caps k
  | S min' =>
      match max with
      | Some O => k s caps
      | _ =>
          body s (reset ids caps)
            (fun s' caps' => repeat_min min' (max_pred max) s' caps' k)
      end
  end.
End Repeat.

(** The matcher of a pattern, in the continuation-passing style of
    ECMA-262: [m icase r s caps k] matches [r] in front of [s] and
    hands the rest of the input and the captures to [k]; when [k]
    fails, the next alternative is tried. *)
Fixpoint m (icase : bool) (r : regex) (s : jsstring) (caps : captures)
    (k : cont) {struct r} : result :=
  match r with
  | Empty => k s caps
  | Char c =>
      match s with
      | x :: s' => if char_matches icase c x then k s' caps else None
      | [] => None
      end
  | Dot =>
      match s with
      | x :: s' => if is_line_terminator x then None else k s' caps
      | [] => None
      end
  | Class invert ranges =>
      match s with
      | x :: s' =>
          if xorb invert (class_mem icase ranges x) then k s' caps else None
      | [] => None
      end
  | Seq r1 r2 => m icase r1 s caps (fun s' caps' => m icase r2 s' caps' k)
  | Alt r1 r2 => or_else (m icase r1 s caps k) (m icase r2 s caps k)
  | Quant min max greedy r' =>
      repeat_min (m icase r') (group_ids r') greedy min max s caps k
  | Group i r' =>
      m icase r' s caps
        (fun s' caps' =>
           k s' (<[i := take (length s - length s')%nat s]> caps'))
  end.

(** The array [match] returns: the matched substring at index 0, the
    captures from index 1 on. *)
Record MatchArray : Type :=
  { matched : jsstring; groups : captures; index : nat }.

(** [match[i]] for [i >= 1]; [None] is [undefined]. *)
Definition capture (a : MatchArray) (i : nat) : option jsstring :=
  groups a !! i.

(** One attempt, at the front of [s]. *)
Definition match_at (re : RegExp) (s : jsstring) : result :=
  m (ignoreCase re) (source re) s ∅ (fun s' caps' => Some (s', caps')).

(** RegExpBuiltinExec without [g] or [y]: the attempts start at index
    0 and move on by one code unit, up to the end of the input. *)
Fixpoint exec_from (re : RegExp) (i : nat) (s : jsstring)
    : option MatchArray :=
  match match_at re s with
  | Some (s', caps) =>
      Some {| matched := take (length s - length s')%nat s;
              groups := caps; index := i |}
  | None =>
      match s with
      | [] => None
      | _ :: s' => exec_from re (S i) s'
      end
  end.

(** [text.match(regex)] for a regex without the [g] flag. *)
Definition String_match (text : jsstring) (re : RegExp)
    : option MatchArray :=
  exec_from re 0%nat text.

End RegExp.
Export RegExp.

(** ** Values, exceptions and the network *)

Module JsValue.

(** The values a parsed JSON body is made of, and [undefined], which
    reading a missing property gives.  An object lists its own
    properties, each name once, as [JSON.parse] leaves them. *)
Inductive value : Type :=
| VUndefined
| VNull
| VBool (b : bool)
| VNum (x : number)
| VStr (s : jsstring)
| VArr (elems : list value)
| VObj (props : list (jsstring * value)).

Inductive error : Type :=
| TypeError
| SyntaxError
| Error (message : jsstring).

(** The outcome of evaluating a block: a value, or an exception on its
    way to the nearest [catch]. *)
Inductive completion (A : Type) : Type :=
| Normal (a : A)
| Throw (e : error).
Arguments Normal {A} a.
Arguments Throw {A} e.

Definition bind {A B : Type} (c : completion A) (f : A -> completion B)
    : completion B :=
  match c with
  | Normal a => f a
  | Throw e => Throw e
  end.

(** [try { body } catch (e) { handler e }]. *)
Definition try_catch {A : Type} (body : completion A)
    (handler : error -> completion A) : completion A :=
  match body with
  | Normal a => Normal a
  | Throw e => handler e
  end.

Definition ToBoolean (v : value) : bool :=
  match v with
  | VUndefined | VNull => false
  | VBool b => b
  | VNum x => truthy_num x
  | VStr s => match s with [] => false | _ => true end
  | VArr _ | VObj _ => true
  end.

(** [a || b]. *)
Definition or_value (a b : value) : value :=
  if ToBoolean a then a else b.

Fixpoint assoc (key : jsstring) (props : list (jsstring * value))
    : option value :=
  match props with
  | [] => None
  | (k, v) :: props' => if str_eqb k key then Some v else assoc key props'
  end.

(** [v.key], for the property names the program reads ([response],
    [status], [message], [data]): an own property of an object, and
    [undefined] on an object without it and on a string, number,
    boolean or array, none of which has a property of such a name.
    Reading a property of [null] or [undefined] throws. *)
Definition Get (v : value) (key : jsstring) : completion value :=
  match v with
  | VUndefined | VNull => Throw TypeError
  | VObj props =>
      Normal match assoc key props with Some x => x | None => VUndefined end
  | _ => Normal VUndefined
  end.

(** [a === b] for a string literal [b]. *)
Definition strict_eq_str (a : value) (b : jsstring) : bool :=
  match a with
  | VStr s => str_eqb s b
  | _ => false
  end.

(** What [fetch] delivers: the status line and the body, [None] when
    the body is not JSON text. *)
Record Response : Type :=
  { status : N; statusText : jsstring; body : option value }.

(** [response.ok]. *)
Definition ok (r : Response) : bool := in_range 200%N 299%N (status r).

(** One request, seen from the page: the promise of [fetch] is
    rejected (no connection), or fulfilled with a response of any
    status. *)
Inductive FetchOutcome : Type :=
| Rejected
| Responded (r : Response).

(** [await fetch(...)]: a rejected promise throws at the [await]. *)
Definition fetch (o : FetchOutcome) : completion Response :=
  match o with
  | Rejected => Throw TypeError
  | Responded r => Normal r
  end.

(** [await response.json()]. *)
Definition Response_json (r : Response) : completion value :=
  match body r with
  | Some v => Normal v
  | None => Throw SyntaxError
  end.

(** The requests that bring no reply to read: no connection, or a
    body that is not JSON. *)
Definition no_reply (o : FetchOutcome) : bool :=
  match o with
  | Rejected => true
  | Responded r => match body r with None => true | Some _ => false end
  end.

End JsValue.
Export JsValue.

#[export] Instance completion_ret : MRet completion := @Normal.
#[export] Instance completion_bind : MBind completion :=
  fun A B f c => bind c f.

(** ** services/metricsService.ts *)

Module MetricsService.

Record LiveMetrics : Type :=
  { costSavingsToday : number;
    carbonReduced : number;
    efficiencyGain : number;
    temperature : number;
    solarIrradiance : number;
    energyPrice : number;
    renewablePct : number;
    sustainabilityScore : number }.

(** [parseFloat(match[1])]: the argument goes through ToString, and an
    absent capture is the string ["undefined"]. *)
Definition ToString_capture (c : option jsstring) : jsstring :=
  match c with
  | Some s => s
  | None => js "undefined"
  end.

Definition extractNumber (text : jsstring) (regex : RegExp) : number :=
  match String_match text regex with
  | Some match_ => parseFloat (ToString_capture (capture match_ 1))
  | None => lit 0 0
  end.

(** [text] is whatever [json.response || ''] gave.  A string has the
    method [match]; on any other truthy JSON value [text.match] is not
    a function and the call throws. *)
Definition call_extractNumber (text : value) (regex : RegExp)
    : completion number :=
  match text with
  | VStr s => Normal (extractNumber s regex)
  | _ => Throw TypeError
  end.

Fixpoint Cat (rs : list regex) : regex :=
  match rs with
  | [] => Empty
  | [r] => r
  | r :: rs' => Seq r (Cat rs')
  end.

(** The pattern of [costSavingsToday]: a dollar sign, then group 1:
    [\d+], [\.?], [\d*]. *)
Definition re_costSavings : RegExp :=
  {| source :=
       Cat [Char 36%N;
            Group 1 (Cat [Plus digit; Opt (Char 46%N); Star digit])];
     ignoreCase := false |}.

(** [/(\d+)\s*kg\s*CO[₂2]/i] *)
Definition re_carbon : RegExp :=
  {| source :=
       Cat [Group 1 (Plus digit); Star space; Lit (js "kg"); Star space;
            Lit (js "CO"); Class false [(8322, 8322); (50, 50)]%N];
     ignoreCase := true |}.

(** [/(\d+)%.*efficiency/i] *)
Definition re_efficiency : RegExp :=
  {| source :=
       Cat [Group 1 (Plus digit); Char 37%N; Star Dot;
            Lit (js "efficiency")];
     ignoreCase := true |}.

(** The pattern of [temperature]: group 1: [\d+], [\.?], [\d*]; then
    the class [[°℃]] and [C]. *)
Definition re_temperature : RegExp :=
  {| source :=
       Cat [Group 1 (Cat [Plus digit; Opt (Char 46%N); Star digit]);
            Class false [(176, 176); (8451, 8451)]%N; Char 67%N];
     ignoreCase := false |}.

(** [/(\d+)\s*W\/m/] *)
Definition re_solar : RegExp :=
  {| source := Cat [Group 1 (Plus digit); Star space; Lit (js "W/m")];
     ignoreCase := false |}.

(** [/\$(\d+)\/MWh/] *)
Definition re_energyPrice : RegExp :=
  {| source := Cat [Char 36%N; Group 1 (Plus digit); Lit (js "/MWh")];
     ignoreCase := false |}.

(** [/(\d+)%.*renewable/i] *)
Definition re_renewable : RegExp :=
  {| source :=
       Cat [Group 1 (Plus digit); Char 37%N; Star Dot;
            Lit (js "renewable")];
     ignoreCase := true |}.

(** The object of the [catch] block. *)
Definition fallback : LiveMetrics :=
  {| costSavingsToday := lit 8550 (-2);
     carbonReduced := lit 180 0;
     efficiencyGain := lit 12 0;
     temperature := lit 24 0;
     solarIrradiance := lit 300 0;
     energyPrice := lit 65 0;
     renewablePct := lit 55 0;
     sustainabilityScore := lit 87 0 |}.

(** The [try] block.  The seven calls are evaluated in the order of
    the object literal. *)
Definition fetchLiveMetrics_try (o : FetchOutcome)
    : completion LiveMetrics :=
  response ← fetch o;
  json ← Response_json response;
  r ← Get json (js "response");
  let text := or_value r (VStr []) in
  cost ← call_extractNumber text re_costSavings;
  carbon ← call_extractNumber text re_carbon;
  efficiency ← call_extractNumber text re_efficiency;
  temp ← call_extractNumber text re_temperature;
  solar ← call_extractNumber text re_solar;
  price ← call_extractNumber text re_energyPrice;
  renewable ← call_extractNumber text re_renewable;
  Normal
    {| costSavingsToday := cost;
       carbonReduced := carbon;
       efficiencyGain := or_num efficiency (lit 12 0);
       temperature := temp;
       solarIrradiance := solar;
       energyPrice := price;
       renewablePct := renewable;
       sustainabilityScore := lit 87 0 |}.

(** The completion of the [async] function's body: how its promise is
    settled. *)
Definition fetchLiveMetrics (o : FetchOutcome) : completion LiveMetrics :=
  try_catch (fetchLiveMetrics_try o) (fun _ => Normal fallback).

(** For the statements below: the object literal of the [try] block
    as a function of the text, *)
Definition snapshot_of_text (text : jsstring) : LiveMetrics :=
  {| costSavingsToday := extractNumber text re_costSavings;
     carbonReduced := extractNumber text re_carbon;
     efficiencyGain := or_num (extractNumber text re_efficiency) (lit 12 0);
     temperature := extractNumber text re_temperature;
     solarIrradiance := extractNumber text re_solar;
     energyPrice := extractNumber text re_energyPrice;
     renewablePct := extractNumber text re_renewable;
     sustainabilityScore := lit 87 0 |}.

(** the text a request hands to the patterns, when it does, *)
Definition text_of (o : FetchOutcome) : option jsstring :=
  match o with
  | Rejected => None
  | Responded r =>
      match body r with
      | Some (VObj props) =>
          match assoc (js "response") props with
          | Some (VStr s) => Some s
          | Some v => if ToBoolean v then None else Some []
          | None => Some []
          end
      | Some (VUndefined | VNull) | None => None
      | Some _ => Some []
      end
  end.

(** and what it is for a field to hold a number that is not [NaN]. *)
Definition numeric (m : LiveMetrics) : Prop :=
  is_nan (costSavingsToday m) = false
  /\ is_nan (carbonReduced m) = false
  /\ is_nan (efficiencyGain m) = false
  /\ is_nan (temperature m) = false
  /\ is_nan (solarIrradiance m) = false
  /\ is_nan (energyPrice m) = false
  /\ is_nan (renewablePct m) = false
  /\ is_nan (sustainabilityScore m) = false.

End MetricsService.
Export MetricsService.

(** ** The polling pattern of the dashboard views *)

Module Poller.

(** A view's effect: one request at mount, [setInterval] for the
    later ones, [clearInterval] as cleanup.  Requests are not awaited
    by the timer, so several can be in flight and settle in any
    order. *)
Inductive request : Type := First | Refresh.

Inductive event : Type :=
| Tick                                     (* the interval fires *)
| Settle (i : nat) (o : FetchOutcome)      (* a request in flight ends *)
| Unmount.                                 (* the view is torn down *)

Section Poller.
Context {View : Type}.

(** What the code after the [await]s of request [rq] does to the
    view's state, given how the request went. *)
Variable settle : request -> FetchOutcome -> View -> View.

Record state : Type :=
  { view : View;
    mounted : bool;
    interval : bool;             (* the timer is set *)
    pending : list request;      (* the requests in flight *)
    issued : nat }.              (* the requests sent so far *)

(** The effect runs once, at mount. *)
Definition mount (init : View) : state :=
  {| view := init; mounted := true; interval := true;
     pending := [First]; issued := 1 |}.

(** A state setter of React: it updates the state of a mounted
    component; called after the unmount it does nothing. *)
Definition set_state (st : state) (f : View -> View) : View :=
  if mounted st then f (view st) else view st.

Definition step (st : state) (ev : event) : state :=
  match ev with
  | Tick =>
      if interval st
      then {| view := view st; mounted := mounted st;
              interval := true;
              pending := pending st ++ [Refresh];
              issued := S (issued st) |}
      else st
  | Settle i o =>
      match pending st !! i with
      | Some rq =>
          {| view := set_state st (settle rq o);
             mounted := mounted st; interval := interval st;
             pending := delete i (pending st);
             issued := issued st |}
      | None => st
      end
  | Unmount =>
      (* the cleanup: clearInterval(interval) *)
      {| view := view st; mounted := false; interval := false;
         pending := pending st; issued := issued st |}
  end.

Definition run (st : state) (evs : list event) : state :=
  fold_left step evs st.

End Poller.

End Poller.
Export Poller.

(** ** components/MetricsHero.tsx *)

Module MetricsHero.

Record View : Type := { metrics : LiveMetrics; isLoading : bool }.

(** The two [useState] initial values. *)
Definition initial : View :=
  {| metrics :=
       {| costSavingsToday := lit 0 0; carbonReduced := lit 0 0;
          efficiencyGain := lit 0 0; temperature := lit 0 0;
          solarIrradiance := lit 0 0; energyPrice := lit 0 0;
          renewablePct := lit 0 0; sustainabilityScore := lit 0 0 |};
     isLoading := true |}.

Definition setMetrics (data : LiveMetrics) (v : View) : View :=
  {| metrics := data; isLoading := isLoading v |}.

Definition setIsLoading (b : bool) (v : View) : View :=
  {| metrics := metrics v; isLoading := b |}.

(** [fetchLiveMetrics().then(...)]: the callback runs when the promise
    is fulfilled.  The first request also ends the loading state. *)
Definition settle (rq : request) (o : FetchOutcome) (v : View) : View :=
  match fetchLiveMetrics o with
  | Normal data =>
      match rq with
      | First => setIsLoading false (setMetrics data v)
      | Refresh => setMetrics data v
      end
  | Throw _ => v
  end.

Definition mount : state := Poller.mount initial.
Definition step : state -> event -> state := Poller.step settle.
Definition run : state -> list event -> state := Poller.run settle.

(** The snapshot the view renders. *)
Definition exposed (st : @state View) : LiveMetrics := metrics (view st).

End MetricsHero.

(** ** The chat gateways and services/climateAgentService.ts *)

Module Gateway.

Section ToString.
(** Number::toString is left open: no statement below depends on how
    a number is printed. *)
Variable Number_toString : number -> jsstring.

(** ToString, as a template literal applies it.  An array prints its
    elements separated by commas, [null] and [undefined] elements as
    nothing; an object of JSON prints as [[object Object]]. *)
Fixpoint ToString (v : value) : jsstring :=
  match v with
  | VUndefined => js "undefined"
  | VNull => js "null"
  | VBool true => js "true"
  | VBool false => js "false"
  | VNum x => Number_toString x
  | VStr s => s
  | VArr elems =>
      (fix join (l : list value) : jsstring :=
         let elem x :=
           match x with
           | VUndefined | VNull => []
           | _ => ToString x
           end in
         match l with
         | [] => []
         | [x] => elem x
         | x :: l' => elem x ++ 44%N :: join l'
         end) elems
  | VObj _ => js "[object Object]"
  end.

(** What [callAgent] of FloatingChat.tsx returns; an absent [data]
    reads as [undefined]. *)
Record AgentResult : Type := { text : value; data : value }.

(** The warning sign with its variation selector, and a space. *)
Definition warning_prefix : jsstring := [9888; 65039; 32]%N.
(** The cross mark, a space, and the message. *)
Definition connect_error : jsstring :=
  [10060; 32]%N ++ js "Error connecting to agent".

(** FloatingChat.tsx, [callAgent]. *)
Definition FloatingChat_callAgent (query : jsstring) (o : FetchOutcome)
    : completion AgentResult :=
  try_catch
    (response ← fetch o;
     json ← Response_json response;
     st ← Get json (js "status");
     if strict_eq_str st (js "error")
     then
       msg ← Get json (js "message");
       Normal {| text := VStr (warning_prefix ++ ToString msg);
                 data := VUndefined |}
     else
       r ← Get json (js "response");
       d ← Get json (js "data");
       Normal {| text := or_value r (VStr (js "No response"));
                 data := d |})
    (fun _ => Normal {| text := VStr connect_error; data := VUndefined |}).

(** IntegratedChat.tsx, [callAgent]. *)
Definition IntegratedChat_callAgent (query : jsstring) (o : FetchOutcome)
    : completion value :=
  try_catch
    (response ← fetch o;
     json ← Response_json response;
     st ← Get json (js "status");
     if strict_eq_str st (js "error")
     then
       msg ← Get json (js "message");
       Normal (VStr (warning_prefix ++ ToString msg))
     else
       r ← Get json (js "response");
       Normal (or_value r (VStr (js "No response"))))
    (fun _ => Normal (VStr connect_error)).

End ToString.

(** climateAgentService.ts, [invokeClimateAgent]: a response that is
    not [ok] is turned into an exception, and the [catch] block logs
    and throws again. *)
Definition invokeClimateAgent (prompt : jsstring) (o : FetchOutcome)
    : completion value :=
  try_catch
    (response ← fetch o;
     if negb (ok response)
     then Throw (Error (js "Agent invocation failed: "
                          ++ statusText response))
     else
       data ← Response_json response;
       Normal data)
    (fun error => Throw error).

End Gateway.
Export Gateway.

(** ** The response cache of the backend *)

Module ResponseCache.

(** What a reply carries for the page. *)
Record Payload : Type := { responseText : jsstring; structuredData : value }.

Record CachedReply : Type := { payload : Payload; timestamp : Z }.

(** Seconds. *)
Definition TTL : Z := 300.
Definition CAPACITY : nat := 100.

Inductive AgentInvocationResult : Type :=
| Success (p : Payload)
| Failure.

Abbreviation cache := (gmap jsstring CachedReply).

Definition valid (now : Z) (e : CachedReply) : bool :=
  now - timestamp e <? TTL.

Definition older (x : jsstring * CachedReply)
    (acc : option (jsstring * CachedReply))
    : option (jsstring * CachedReply) :=
  match acc with
  | None => Some x
  | Some y => if timestamp (snd x) <? timestamp (snd y) then Some x else acc
  end.

(** The key of an entry with the least timestamp. *)
Definition oldest (c : cache) : option jsstring :=
  fst <$> foldr older None (map_to_list c).

Definition evict_oldest (c : cache) : cache :=
  match oldest c with
  | Some k => delete k c
  | None => c
  end.

Definition store (now : Z) (prompt : jsstring) (p : Payload) (c : cache)
    : cache :=
  let c' := if (CAPACITY <=? size c)%nat then evict_oldest c else c in
  <[prompt := {| payload := p; timestamp := now |}]> c'.

Section Backend.
(** The reasoning call: the payload, or [None] when it fails. *)
Variable reason : jsstring -> option Payload.

Definition miss (now : Z) (prompt : jsstring) (c : cache)
    : AgentInvocationResult * cache :=
  match reason prompt with
  | Some p => (Success p, store now prompt p c)
  | None => (Failure, c)
  end.

(** Modelled from the spec: the request handler of the backend with
    its response cache (the Python runtime is not part of the
    sources at hand).  The cache is keyed by the verbatim prompt; an
    entry is valid while [now - timestamp < TTL]; it is created on
    a miss after a successful reasoning call, read on every
    request, and removed when it has expired or, the oldest first,
    when the cache is full. *)
Definition invoke (now : Z) (prompt : jsstring) (c : cache)
    : AgentInvocationResult * cache :=
  match c !! prompt with
  | Some e =>
      if valid now e
      then (Success (payload e), c)
      else miss now prompt (delete prompt c)
  | None => miss now prompt c
  end.

(** Requests of other callers, each with its time. *)
Definition serve (c : cache) (reqs : list (Z * jsstring)) : cache :=
  fold_left (fun c' '(now, prompt) => snd (invoke now prompt c')) reqs c.

(** Every entry holds what the reasoning call gives for its prompt:
    the cache was filled from this backend. *)
Definition consistent (c : cache) : Prop :=
  forall prompt e, c !! prompt = Some e -> reason prompt = Some (payload e).

End Backend.

End ResponseCache.

(** ** What a successful match says: the relational reading of a pattern *)

Module RegExpSem.

(** [n] rounds of [R] in a row. *)
Fixpoint rounds (R : jsstring -> captures -> jsstring -> captures -> Prop)
    (n : nat) (s : jsstring) (c : captures) (s' : jsstring) (c' : captures)
    : Prop :=
  match n with
  | O => s' = s /\ c' = c
  | S n' => exists s1 c1, R s c s1 c1 /\ rounds R n' s1 c1 s' c'
  end.

(** The numbers of rounds a quantifier admits: never more than [max];
    at least [min], or as many as [max] allows. *)
Definition quant_ok (min : nat) (max : option nat) (n : nat) : Prop :=
  match max with
  | Some mx => (n <= mx)%nat /\ ((min <= n)%nat \/ n = mx)
  | None => (min <= n)%nat
  end.

(** [sem icase r s c s' c']: [r] matches the part of [s] in front of
    [s'] and turns the captures [c] into [c']. *)
Fixpoint sem (icase : bool) (r : regex) (s : jsstring) (c : captures)
    (s' : jsstring) (c' : captures) {struct r} : Prop :=
  match r with
  | Empty => s' = s /\ c' = c
  | Char ch =>
      exists x, s = x :: s' /\ char_matches icase ch x = true /\ c' = c
  | Dot =>
      exists x, s = x :: s' /\ is_line_terminator x = false /\ c' = c
  | Class invert ranges =>
      exists x, s = x :: s'
                /\ xorb invert (class_mem icase ranges x) = true /\ c' = c
  | Seq r1 r2 =>
      exists s1 c1, sem icase r1 s c s1 c1 /\ sem icase r2 s1 c1 s' c'
  | Alt r1 r2 => sem icase r1 s c s' c' \/ sem icase r2 s c s' c'
  | Quant min max _ r' =>
      exists n, quant_ok min max n
                /\ rounds (fun s0 c0 => sem icase r' s0 (reset (group_ids r') c0))
                     n s c s' c'
  | Group i r' =>
      exists c1, sem icase r' s c s' c1
                 /\ c' = <[i := take (length s - length s') s]> c1
  end.

(** A matcher meets [R] when each of its results comes from its
    continuation, called on a state that [R] relates to the start. *)
Definition meets (R : jsstring -> captures -> jsstring -> captures -> Prop)
    (M : matcher) : Prop :=
  forall s c k z,
    M s c k = Some z -> exists s' c', R s c s' c' /\ k s' c' = Some z.

(** Two continuations that agree on the inputs of length at most [n]. *)
Definition agree_below (n : nat) (k1 k2 : cont) : Prop :=
  forall s' c', (length s' <= n)%nat -> k1 s' c' = k2 s' c'.

(** A matcher that only moves forward: its result depends on its
    continuation only at inputs no longer than its own. *)
Definition forward (M : matcher) : Prop :=
  forall s c k1 k2, agree_below (length s) k1 k2 -> M s c k1 = M s c k2.

(** The class [\d], that is [[0-9]]. *)
Definition is_digit_class (invert : bool)
    (ranges : list (code_unit * code_unit)) : bool :=
  negb invert
  && match ranges with
     | [(lo, hi)] => N.eqb lo 48 && N.eqb hi 57
     | _ => false
     end.

(** Patterns whose every match starts with a decimal digit. *)
Fixpoint starts_with_digit (r : regex) : bool :=
  match r with
  | Class invert ranges => is_digit_class invert ranges
  | Seq r1 _ => starts_with_digit r1
  | Quant (S _) None _ r' => starts_with_digit r'
  | Group _ r' => starts_with_digit r'
  | _ => false
  end.

Definition mentions (i : nat) (r : regex) : bool :=
  existsb (Nat.eqb i) (group_ids r).

(** Patterns whose every match leaves in group 1 a string that starts
    with a decimal digit. *)
Fixpoint captures_number (r : regex) : bool :=
  match r with
  | Group 1 r' => starts_with_digit r'
  | Group _ r' => captures_number r'
  | Seq r1 r2 =>
      (captures_number r1 && negb (mentions 1 r2)) || captures_number r2
  | Alt r1 r2 => captures_number r1 && captures_number r2
  | _ => false
  end.

End RegExpSem.
Export RegExpSem.

(** ** Sample replies *)

Module Samples.

Definition json_reply (st : N) (json : value) : FetchOutcome :=
  Responded {| status := st; statusText := js "OK"; body := Some json |}.

(** A successful reply whose text names ten dollars. *)
Definition saved_10 : FetchOutcome :=
  json_reply 200
    (VObj [(js "status", VStr (js "success"));
           (js "response", VStr (js "Saved $10 today"))]).

(** A successful reply whose text holds no figure at all. *)
Definition all_quiet_props : list (jsstring * value) :=
  [(js "status", VStr (js "success"));
   (js "response", VStr (js "All systems nominal"))].

Definition all_quiet : FetchOutcome := json_reply 200 (VObj all_quiet_props).

(** A reply with structured data next to its text. *)
Definition text_99_data (d : value) : FetchOutcome :=
  json_reply 200
    (VObj [(js "status", VStr (js "success"));
           (js "response", VStr (js "Saved $99 today"));
           (js "data", d)]).

Definition cost_savings_42 : value :=
  VObj [(js "cost_savings", VNum (lit 42 0))].

(** An error reported by the backend, under a 500 status. *)
Definition backend_error : FetchOutcome :=
  Responded
    {| status := 500; statusText := js "Internal Server Error";
       body := Some (VObj [(js "status", VStr (js "error"));
                           (js "message", VStr (js "Agent timed out"))]) |}.

(** A 500 whose body is JSON without a [status] of ["error"]. *)
Definition partial_500 : FetchOutcome :=
  Responded
    {| status := 500; statusText := js "Internal Server Error";
       body := Some (VObj [(js "response", VStr (js "partial"))]) |}.

(** Structured data for the spot view, with a [null] among its
    windows. *)
Definition spot_data_with_null : value :=
  VObj [(js "cost_savings_pct", VNum (lit 80 0));
        (js "optimal_windows",
         VArr [VObj [(js "spot_price_usd", VNum (lit 48 (-3)))]; VNull])].

Definition spot_reply_with_null : FetchOutcome :=
  json_reply 200
    (VObj [(js "status", VStr (js "success"));
           (js "data", spot_data_with_null)]).

(** The error reply again, in parts. *)
Definition error_props : list (jsstring * value) :=
  [(js "status", VStr (js "error"));
   (js "message", VStr (js "Agent timed out"))].

Definition error_response : Response :=
  {| status := 500; statusText := js "Internal Server Error";
     body := Some (VObj error_props) |}.


(** A backend that answers every prompt with the prompt's length. *)
Definition steady_backend (prompt : jsstring)
    : option ResponseCache.Payload :=
  Some {| ResponseCache.responseText := js "Saved $10 today";
          ResponseCache.structuredData :=
            VObj [(js "prompt_length",
                   VNum (lit (N.of_nat (length prompt)) 0))] |}.

End Samples.

(** ** Blocks that set state and may throw *)

Module Effects.

(** A block of a component: run on the state, it leaves a state and
    ends normally or with an exception.  The calls of state setters
    made before an exception stay made. *)
Definition action (S A : Type) : Type := S -> S * completion A.

Definition pure {S A : Type} (a : A) : action S A := fun st => (st, Normal a).

Definition and_then {S A B : Type} (c : action S A) (f : A -> action S B)
    : action S B :=
  fun st =>
    match c st with
    | (st', Normal a) => f a st'
    | (st', Throw e) => (st', Throw e)
    end.

(** An expression that reads no state. *)
Definition eval {S A : Type} (c : completion A) : action S A :=
  fun st => (st, c).

(** A call of a state setter with an updater function. *)
Definition set {S : Type} (f : S -> S) : action S unit :=
  fun st => (f st, Normal tt).

(** [if (b) { c }]. *)
Definition when {S : Type} (b : bool) (c : action S unit) : action S unit :=
  if b then c else pure tt.

(** [try { body } catch (e) { handler e }]. *)
Definition try_catch_block {S A : Type} (body : action S A)
    (handler : error -> action S A) : action S A :=
  fun st =>
    match body st with
    | (st', Normal a) => (st', Normal a)
    | (st', Throw e) => handler e st'
    end.

(** [v?.key]. *)
Definition Get_optional (v : value) (key : jsstring) : completion value :=
  match v with
  | VUndefined | VNull => Normal VUndefined
  | _ => Get v key
  end.

(** [Array.prototype.map] with a callback that may throw. *)
Fixpoint map_throwing {A B : Type} (f : A -> completion B) (l : list A)
    : completion (list B) :=
  match l with
  | [] => Normal []
  | x :: l' =>
      match f x with
      | Normal y =>
          match map_throwing f l' with
          | Normal ys => Normal (y :: ys)
          | Throw e => Throw e
          end
      | Throw e => Throw e
      end
  end.

End Effects.
Export Effects.

#[export] Instance action_ret {S : Type} : MRet (action S) :=
  fun A => @pure S A.
#[export] Instance action_bind {S : Type} : MBind (action S) :=
  fun A B f c => and_then c f.

(** ** components/AWSSpotOptimization.tsx *)

Module SpotOptimization.

Record SpotWindow : Type :=
  { time : jsstring;
    renewable : value;
    spotPrice : value;
    onDemand : number;
    savings : number;
    carbonIntensity : value;
    recommendation : value }.

(** The [metrics] state; its fields take what the reply holds, of
    whatever type. *)
Record Metrics : Type :=
  { costSavings : value;
    carbonReduction : value;
    carbonSavedKg : value;
    renewableAvg : value }.

Record View : Type :=
  { isLoading : bool; spotWindows : list SpotWindow; metrics : Metrics }.

(** The three [useState] initial values. *)
Definition initial : View :=
  {| isLoading := true;
     spotWindows := [];
     metrics := {| costSavings := VNum (lit 75 0);
                   carbonReduction := VNum (lit 45 0);
                   carbonSavedKg := VNum (lit 156 0);
                   renewableAvg := VNum (lit 68 0) |} |}.

Definition setIsLoading (b : bool) (v : View) : View :=
  {| isLoading := b; spotWindows := spotWindows v; metrics := metrics v |}.

Definition setSpotWindows (ws : list SpotWindow) (v : View) : View :=
  {| isLoading := isLoading v; spotWindows := ws; metrics := metrics v |}.

(** [setMetrics(prev => ...)]. *)
Definition setMetrics (f : Metrics -> Metrics) (v : View) : View :=
  {| isLoading := isLoading v; spotWindows := spotWindows v;
     metrics := f (metrics v) |}.

Definition with_costSavings (x : value) (prev : Metrics) : Metrics :=
  {| costSavings := x; carbonReduction := carbonReduction prev;
     carbonSavedKg := carbonSavedKg prev; renewableAvg := renewableAvg prev |}.

Definition with_carbonReduction (x : value) (prev : Metrics) : Metrics :=
  {| costSavings := costSavings prev; carbonReduction := x;
     carbonSavedKg := carbonSavedKg prev; renewableAvg := renewableAvg prev |}.

Definition with_carbonSavedKg (x : value) (prev : Metrics) : Metrics :=
  {| costSavings := costSavings prev;
     carbonReduction := carbonReduction prev;
     carbonSavedKg := x; renewableAvg := renewableAvg prev |}.

Definition with_renewableAvg (x : value) (prev : Metrics) : Metrics :=
  {| costSavings := costSavings prev;
     carbonReduction := carbonReduction prev;
     carbonSavedKg := carbonSavedKg prev; renewableAvg := x |}.

(** The windows of the [catch] block. *)
Definition fallback_windows : list SpotWindow :=
  [ {| time := js "2:00 AM - 6:00 AM";
       renewable := VNum (lit 65 0);
       spotPrice := VNum (lit 48 (-3));
       onDemand := lit 192 (-3);
       savings := lit 75 0;
       carbonIntensity := VNum (lit 45 (-2));
       recommendation := VStr (js "Optimal for batch processing") |};
    {| time := js "2:00 PM - 6:00 PM";
       renewable := VNum (lit 72 0);
       spotPrice := VNum (lit 52 (-3));
       onDemand := lit 192 (-3);
       savings := lit 73 0;
       carbonIntensity := VNum (lit 38 (-2));
       recommendation := VStr (js "Peak solar - best for ML training") |} ].

Definition isArray (v : value) : option (list value) :=
  match v with VArr elems => Some elems | _ => None end.

Section FetchSpotData.
(** [formatTimeWindow] goes through [Date] and the time zone of the
    browser; it is left open.  It returns a string for every pair of
    arguments. *)
Variable formatTimeWindow : value -> value -> jsstring.

(** The callback of [data.optimal_windows.map]. *)
Definition window_of (w : value) : completion SpotWindow :=
  start_time ← Get w (js "start_time");
  end_time ← Get w (js "end_time");
  renewable_pct ← Get w (js "renewable_pct");
  spot_price_usd ← Get w (js "spot_price_usd");
  carbon_intensity ← Get w (js "carbon_intensity");
  recommendation_ ← Get w (js "recommendation");
  Normal {| time := formatTimeWindow start_time end_time;
            renewable := or_value renewable_pct (VNum (lit 0 0));
            spotPrice := or_value spot_price_usd (VNum (lit 0 0));
            onDemand := lit 192 (-3);
            savings := lit 75 0;
            carbonIntensity := or_value carbon_intensity (VNum (lit 0 0));
            recommendation := or_value recommendation_ (VStr []) |}.

(** The body of [if (json.status === 'success' && json.data)]. *)
Definition use_data (data : value) : action View unit :=
  cost_savings_pct ← eval (Get data (js "cost_savings_pct"));
  when (ToBoolean cost_savings_pct)
    (set (setMetrics (with_costSavings cost_savings_pct)));;
  carbon_reduction_pct ← eval (Get data (js "carbon_reduction_pct"));
  when (ToBoolean carbon_reduction_pct)
    (set (setMetrics (with_carbonReduction carbon_reduction_pct)));;
  climate_impact ← eval (Get data (js "climate_impact"));
  saved ← eval (Get_optional climate_impact (js "daily_carbon_saved_kg"));
  when (ToBoolean saved) (set (setMetrics (with_carbonSavedKg saved)));;
  used ← eval (Get_optional climate_impact (js "renewable_energy_used_pct"));
  when (ToBoolean used) (set (setMetrics (with_renewableAvg used)));;
  optimal_windows ← eval (Get data (js "optimal_windows"));
  match isArray optimal_windows with
  | Some elems =>
      windows ← eval (map_throwing window_of elems);
      set (setSpotWindows windows)
  | None => pure tt
  end.

(** [fetchSpotData]: the state setters it calls, in order. *)
Definition fetchSpotData (o : FetchOutcome) : action View unit :=
  try_catch_block
    (response ← eval (fetch o);
     json ← eval (Response_json response);
     st ← eval (Get json (js "status"));
     (if strict_eq_str st (js "success")
      then
        data ← eval (Get json (js "data"));
        when (ToBoolean data) (use_data data)
      else pure tt);;
     set (setIsLoading false))
    (fun _ =>
       set (setSpotWindows fallback_windows);;
       set (setIsLoading false)).

(** The view polls with it, at mount and every five minutes. *)
Definition settle (rq : request) (o : FetchOutcome) (v : View) : View :=
  fst (fetchSpotData o v).

Definition mount : state := Poller.mount initial.
Definition run : state -> list event -> state := Poller.run settle.

End FetchSpotData.

(** The structured data a request brings, when its reply is a success
    with data. *)
Definition structured (o : FetchOutcome) : option value :=
  match o with
  | Rejected => None
  | Responded r =>
      match body r with
      | Some (VObj props) =>
          match assoc (js "status") props with
          | Some st =>
              if strict_eq_str st (js "success")
              then match assoc (js "data") props with
                   | Some d => if ToBoolean d then Some d else None
                   | None => None
                   end
              else None
          | None => None
          end
      | _ => None
      end
  end.

(** A property of structured data that is there to read. *)
Definition field (data : value) (key : jsstring) : value :=
  match Get data key with
  | Normal x => x
  | Throw _ => VUndefined
  end.

Definition field2 (data : value) (key1 key2 : jsstring) : value :=
  match Get_optional (field data key1) key2 with
  | Normal x => x
  | Throw _ => VUndefined
  end.

(** The metrics after one reply with structured data: each field takes
    the value of the reply when it is truthy. *)
Definition updated (data : value) (m : Metrics) : Metrics :=
  let pick (x : value) (f : value -> Metrics -> Metrics) (m0 : Metrics) :=
    if ToBoolean x then f x m0 else m0 in
  pick (field2 data (js "climate_impact") (js "renewable_energy_used_pct"))
    with_renewableAvg
    (pick (field2 data (js "climate_impact") (js "daily_carbon_saved_kg"))
       with_carbonSavedKg
       (pick (field data (js "carbon_reduction_pct")) with_carbonReduction
          (pick (field data (js "cost_savings_pct")) with_costSavings m))).

Definition truthy_metrics (m : Metrics) : Prop :=
  ToBoolean (costSavings m) = true
  /\ ToBoolean (carbonReduction m) = true
  /\ ToBoolean (carbonSavedKg m) = true
  /\ ToBoolean (renewableAvg m) = true.

End SpotOptimization.

(** ** components/SustainabilityScore.tsx *)

Module SustainabilityScore.

Record CategoryScore : Type :=
  { name : jsstring; score : number; color : jsstring }.

Record View : Type :=
  { overallScore : value;
    isLoading : bool;
    categories : list CategoryScore;
    performanceText : jsstring;
    performanceDesc : jsstring;
    recommendations : list jsstring }.

(** The [useState] initial values. *)
Definition initial : View :=
  {| overallScore := VNum (lit 0 0);
     isLoading := true;
     categories :=
       [ {| name := js "Energy Efficiency"; score := lit 0 0;
            color := js "#2F9E44" |};
         {| name := js "Carbon Footprint"; score := lit 0 0;
            color := js "#2F9E44" |};
         {| name := js "Resource Optimization"; score := lit 0 0;
            color := js "#4CAF50" |};
         {| name := js "Waste Reduction"; score := lit 0 0;
            color := js "#2F9E44" |} ];
     performanceText := js "Loading...";
     performanceDesc := js "Calculating sustainability metrics...";
     recommendations := [] |}.

Definition setOverallScore (x : value) (v : View) : View :=
  {| overallScore := x; isLoading := isLoading v;
     categories := categories v; performanceText := performanceText v;
     performanceDesc := performanceDesc v;
     recommendations := recommendations v |}.

Definition setIsLoading (b : bool) (v : View) : View :=
  {| overallScore := overallScore v; isLoading := b;
     categories := categories v; performanceText := performanceText v;
     performanceDesc := performanceDesc v;
     recommendations := recommendations v |}.

Definition setPerformanceText (t : jsstring) (v : View) : View :=
  {| overallScore := overallScore v; isLoading := isLoading v;
     categories := categories v; performanceText := t;
     performanceDesc := performanceDesc v;
     recommendations := recommendations v |}.

Definition setPerformanceDesc (t : jsstring) (v : View) : View :=
  {| overallScore := overallScore v; isLoading := isLoading v;
     categories := categories v; performanceText := performanceText v;
     performanceDesc := t;
     recommendations := recommendations v |}.

Definition setRecommendations (l : list jsstring) (v : View) : View :=
  {| overallScore := overallScore v; isLoading := isLoading v;
     categories := categories v; performanceText := performanceText v;
     performanceDesc := performanceDesc v;
     recommendations := l |}.

(** [a >= b] and [a < b] on Numbers: false when either is [NaN]. *)
Definition ge_num (a b : number) : bool :=
  match SFcompare a b with
  | Some Gt | Some Eq => true
  | _ => false
  end.

Definition lt_num (a b : number) : bool :=
  match SFcompare a b with
  | Some Lt => true
  | _ => false
  end.

Definition excellent : jsstring := js "Excellent Performance".
Definition good : jsstring := js "Good Performance".
Definition needs_improvement : jsstring := js "Needs Improvement".
Definition action_required : jsstring := js "Action Required".


Definition shift_recommendations : list jsstring :=
  [js "Shift workloads to high renewable energy periods";
   js "Optimize HVAC settings during peak demand";
   js "Schedule cloud computing during low-carbon windows"].

Definition maintain_recommendations : list jsstring :=
  [js "Maintain current optimization strategies";
   js "Monitor for renewable energy opportunities";
   js "Continue efficient resource utilization"].

Section FetchScore.
(** How a number is printed and how a string is read as a number are
    left open. *)
Variable Number_toString : number -> jsstring.
Variable StringToNumber : jsstring -> number.

(** ToNumber, as [>=] and [<] apply it to an operand that is compared
    with a number: an array or an object goes through its string. *)
Definition ToNumber (v : value) : number :=
  match v with
  | VUndefined => NaN
  | VNull => lit 0 0
  | VBool true => lit 1 0
  | VBool false => lit 0 0
  | VNum x => x
  | VStr s => StringToNumber s
  | VArr _ | VObj _ => StringToNumber (ToString Number_toString v)
  end.

(** [score >= n] and [score < n] for a number literal [n]. *)
Definition ge (sc : value) (n : number) : bool := ge_num (ToNumber sc) n.
Definition lt (sc : value) (n : number) : bool := lt_num (ToNumber sc) n.

(** The text and the description that the chain of [if (score >= ...)]
    sets. *)
Definition performance_of (sc : value) : jsstring * jsstring :=
  if ge sc (lit 80 0) then
    (excellent,
     js "Your infrastructure exceeds AWS sustainability best practices")
  else if ge sc (lit 60 0) then
    (good,
     js "Meeting most sustainability targets with room for improvement")
  else if ge sc (lit 40 0) then
    (needs_improvement,
     js "Several opportunities to enhance sustainability performance")
  else
    (action_required,
     js "Significant improvements needed to meet sustainability goals").

(** The callback of [recommendations.map]: the action, an arrow, the
    impact. *)
Definition recommendation_line (rec : value) : completion jsstring :=
  action_ ← Get rec (js "action");
  impact ← Get rec (js "impact");
  Normal (ToString Number_toString action_
            ++ [32; 8594; 32]%N ++ ToString Number_toString impact).

(** The body of [if (json.status === 'success' && json.data)].  Its
    last part reads a variable [text] that is declared nowhere: the
    evaluation of [text.match] throws (a ReferenceError, which the
    [catch] block only logs), and the statements after it are never
    reached. *)
Definition use_data (data : value) : action View unit :=
  sc ← eval (Get data (js "sustainability_score"));
  when (ToBoolean sc)
    (set (setOverallScore sc);;
     set (setIsLoading false);;
     set (setPerformanceText (fst (performance_of sc)));;
     set (setPerformanceDesc (snd (performance_of sc))));;
  recs ← eval (Get_optional data (js "recommendations"));
  match (if ToBoolean recs then SpotOptimization.isArray recs else None) with
  | Some elems =>
      lines ← eval (map_throwing recommendation_line elems);
      set (setRecommendations lines)
  | None =>
      sc2 ← eval (Get_optional data (js "sustainability_score"));
      when (ToBoolean sc2)
        (set (setRecommendations
                (if lt sc2 (lit 70 0)
                 then shift_recommendations
                 else maintain_recommendations)))
  end;;
  eval (Throw (Error (js "text is not defined"))).

(** [fetchScore]: the state setters it calls, in order. *)
Definition fetchScore (o : FetchOutcome) : action View unit :=
  try_catch_block
    (response ← eval (fetch o);
     json ← eval (Response_json response);
     st ← eval (Get json (js "status"));
     if strict_eq_str st (js "success")
     then
       data ← eval (Get json (js "data"));
       when (ToBoolean data) (use_data data)
     else pure tt)
    (fun _ => set (setIsLoading false)).

(** The view polls with it, at mount and every minute. *)
Definition settle (rq : request) (o : FetchOutcome) (v : View) : View :=
  fst (fetchScore o v).

Definition mount : state := Poller.mount initial.
Definition run : state -> list event -> state := Poller.run settle.


End FetchScore.

End SustainabilityScore.

(** ** components/FloatingChat.tsx: the cards of the chat *)

Module ChatCards.

(** [s.includes(sub)]. *)
Fixpoint includes (s sub : jsstring) : bool :=
  match starts_with sub s with
  | Some _ => true
  | None =>
      match s with
      | [] => false
      | _ :: s' => includes s' sub
      end
  end.


(** The lower case of an ASCII code unit. *)
Definition lower_ascii (c : code_unit) : code_unit :=
  if in_range 65%N 90%N c then (c + 32)%N else c.

(** The components a reply can be decorated with, and their data. *)
Inductive card : Type :=
| EnergyStatusCard (consumption efficiency : value)
| CostSavingsCard (today month : value)
| CarbonImpactCard (reduced baseline carKm : value)
| SpotWindowCard (timeWindow renewable spotPrice savings recommendation : value)
| OptimizationActionCard (description savings : value)
| QuickMetricsGrid (metrics : list (jsstring * jsstring * bool)).





Section GenerateUI.
(** How a number is printed is left open, and so is [toLowerCase]
    beyond what the statements assume of it. *)
Variable Number_toString : number -> jsstring.
Variable toLowerCase : jsstring -> jsstring.

(** [data?.key || fallback]. *)
Definition data_or (data : value) (key : jsstring) (fallback : value)
    : completion value :=
  x ← Get_optional data key;
  Normal (or_value x fallback).

(** The template literals of the metrics grid. *)
Definition show (prefix : jsstring) (x : value) (suffix : jsstring)
    : jsstring :=
  prefix ++ ToString Number_toString x ++ suffix.

(** [generateUIResponse]; [None] is [null]. *)
Definition generateUIResponse (query : jsstring) (data : value)
    : completion (option card) :=
  let lowerQuery := toLowerCase query in
  if includes lowerQuery (js "energy") || includes lowerQuery (js "status")
  then
    consumption ← data_or data (js "consumption") (VNum (lit 2112 0));
    efficiency ← data_or data (js "efficiency") (VNum (lit 12 0));
    Normal (Some (EnergyStatusCard consumption efficiency))
  else if includes lowerQuery (js "cost") || includes lowerQuery (js "savings")
  then
    today ← data_or data (js "cost_savings") (VNum (lit 855 (-1)));
    Normal (Some (CostSavingsCard today (VNum (lit 2565 0))))
  else if includes lowerQuery (js "carbon") || includes lowerQuery (js "co2")
          || includes lowerQuery (js "impact")
  then
    reduced ← data_or data (js "carbon_reduced") (VNum (lit 180 0));
    Normal (Some (CarbonImpactCard reduced (VNum (lit 240 0))
                    (VNum (lit 450 0))))
  else if includes lowerQuery (js "spot") || includes lowerQuery (js "aws")
  then
    timeWindow ← data_or data (js "time_window")
                   (VStr (js "2:00 PM - 6:00 PM"));
    renewable ← data_or data (js "renewable_pct") (VNum (lit 72 0));
    spotPrice ← data_or data (js "spot_price") (VNum (lit 52 (-3)));
    savings ← data_or data (js "savings_pct") (VNum (lit 73 0));
    Normal (Some (SpotWindowCard timeWindow renewable spotPrice savings
                    (VStr (js "Peak solar - best for ML training"))))
  else if includes lowerQuery (js "optimize")
          || includes lowerQuery (js "recommendation")
  then
    savings ← data_or data (js "optimization_savings") (VNum (lit 468 0));
    Normal (Some (OptimizationActionCard
                    (VStr (js "Migrate 3 workloads to AWS Graviton processors"))
                    savings))
  else if includes lowerQuery (js "metric") || includes lowerQuery (js "summary")
  then
    efficiency ← data_or data (js "efficiency") (VNum (lit 12 0));
    cost_savings ← data_or data (js "cost_savings") (VNum (lit 8550 (-2)));
    carbon_reduced ← data_or data (js "carbon_reduced") (VNum (lit 180 0));
    renewable_pct ← data_or data (js "renewable_pct") (VNum (lit 55 0));
    Normal
      (Some (QuickMetricsGrid
               [(js "Energy Efficiency",
                 show (js "+") efficiency (js "%"), true);
                (js "Cost Savings Today",
                 show (js "$") cost_savings [], true);
                (js "Carbon Reduced",
                 show [] carbon_reduced (js " kg CO" ++ [8322%N]), true);
                (js "Renewable Energy",
                 show [] renewable_pct (js "%"), true)]))
  else Normal None.

End GenerateUI.

(** Which component a card is. *)
Inductive kind : Type :=
| Energy | Cost | Carbon | Spot | Optimization | Metrics | NoCard.

Definition kind_of (c : completion (option card)) : option kind :=
  match c with
  | Normal (Some (EnergyStatusCard _ _)) => Some Energy
  | Normal (Some (CostSavingsCard _ _)) => Some Cost
  | Normal (Some (CarbonImpactCard _ _ _)) => Some Carbon
  | Normal (Some (SpotWindowCard _ _ _ _ _)) => Some Spot
  | Normal (Some (OptimizationActionCard _ _)) => Some Optimization
  | Normal (Some (QuickMetricsGrid _)) => Some Metrics
  | Normal None => Some NoCard
  | Throw _ => None
  end.

End ChatCards.

(** ** components/IntegratedChat.tsx: the conversation *)

Module IntegratedChat.

Inductive Sender : Type := User | Agent.

Record ChatMessage : Type :=
  { id : jsstring; content : value; sender : Sender; timestamp : N }.

Record View : Type :=
  { messages : list ChatMessage; input : jsstring; isTyping : bool }.

(** The [useState] initial values. *)
Definition initial : View :=
  {| messages := []; input := []; isTyping := false |}.

Definition setMessages (f : list ChatMessage -> list ChatMessage) (v : View)
    : View :=
  {| messages := f (messages v); input := input v; isTyping := isTyping v |}.

Definition setInput (s : jsstring) (v : View) : View :=
  {| messages := messages v; input := s; isTyping := isTyping v |}.

Definition setIsTyping (b : bool) (v : View) : View :=
  {| messages := messages v; input := input v; isTyping := b |}.

(** [s.trim()]: white space and line terminators go, at both ends. *)
Definition trim (s : jsstring) : jsstring :=
  rev (trim_start (rev (trim_start s))).

(** [t.toString()] for a time [t] in milliseconds, a whole number far
    below 10^21: its decimal digits. *)
Definition time_toString (t : N) : jsstring :=
  js (NilZero.string_of_uint (N.to_uint t)).

(** The component with the calls of [callAgent] that have not settled
    yet, each with its query. *)
Record state : Type :=
  { view : View; mounted : bool; waiting : list jsstring }.

Inductive event : Type :=
| Change (s : jsstring)          (* the user edits the input field *)
| Send (now date : N)            (* handleSend is called *)
| Reply (i : nat) (o : FetchOutcome) (now date : N)
                                 (* a call of callAgent settles *)
| Unmount.

Definition mount : state :=
  {| view := initial; mounted := true; waiting := [] |}.

Section HandleSend.
Variable Number_toString : number -> jsstring.

(** [handleSend] up to its [await]; [now] and [date] are what
    [Date.now()] and [new Date()] give. *)
Definition handleSend_start (now date : N) (v : View)
    : option (View * jsstring) :=
  match trim (input v) with
  | [] => None
  | _ :: _ =>
      let userMessage :=
        {| id := time_toString now; content := VStr (input v);
           sender := User; timestamp := date |} in
      let v1 := setMessages (fun prev => prev ++ [userMessage]) v in
      let query := input v in
      Some (setIsTyping true (setInput [] v1), query)
  end.

(** [handleSend] after its [await]. *)
Definition handleSend_finish (query : jsstring) (o : FetchOutcome)
    (now date : N) (v : View) : View :=
  match IntegratedChat_callAgent Number_toString query o with
  | Normal agentResponse =>
      let agentMessage :=
        {| id := time_toString (now + 1); content := agentResponse;
           sender := Agent; timestamp := date |} in
      setIsTyping false (setMessages (fun prev => prev ++ [agentMessage]) v)
  | Throw _ => v
  end.

(** One event of the component.  React renders between two events, so
    the [input] that [handleSend] reads from its closure is the one of
    the state; the functional updates of [setMessages] run on the
    messages of the state at the time; and a state update of an
    unmounted component is dropped. *)
Definition step (st : state) (ev : event) : state :=
  match ev with
  | Change s =>
      if mounted st
      then {| view := setInput s (view st); mounted := true;
              waiting := waiting st |}
      else st
  | Send now date =>
      if mounted st
      then match handleSend_start now date (view st) with
           | Some (v, query) =>
               {| view := v; mounted := true;
                  waiting := waiting st ++ [query] |}
           | None => st
           end
      else st
  | Reply i o now date =>
      match waiting st !! i with
      | Some query =>
          {| view := if mounted st
                     then handleSend_finish query o now date (view st)
                     else view st;
             mounted := mounted st;
             waiting := delete i (waiting st) |}
      | None => st
      end
  | Unmount =>
      {| view := view st; mounted := false; waiting := waiting st |}
  end.

Definition run (st : state) (evs : list event) : state :=
  fold_left step evs st.

End HandleSend.

Definition from (who : Sender) (m : ChatMessage) : bool :=
  match sender m, who with
  | User, User | Agent, Agent => true
  | _, _ => false
  end.

Definition count_from (who : Sender) (l : list ChatMessage) : nat :=
  length (List.filter (from who) l).

End IntegratedChat.

(** ** Further notions for the statements *)

Module Notions.

(** The sign bit of a Number; [NaN] has none to speak of. *)
Definition sign_bit (x : number) : bool :=
  match x with
  | S754_zero sg | S754_infinity sg | S754_finite sg _ _ => sg
  | S754_nan => false
  end.

(** No field is negative, not even a negative zero. *)
Definition unsigned_fields (m : LiveMetrics) : Prop :=
  sign_bit (costSavingsToday m) = false
  /\ sign_bit (carbonReduced m) = false
  /\ sign_bit (efficiencyGain m) = false
  /\ sign_bit (temperature m) = false
  /\ sign_bit (solarIrradiance m) = false
  /\ sign_bit (energyPrice m) = false
  /\ sign_bit (renewablePct m) = false
  /\ sign_bit (sustainabilityScore m) = false.

(** What [fetchLiveMetrics] builds from a text without any match. *)
Definition blank_snapshot : LiveMetrics :=
  {| costSavingsToday := lit 0 0;
     carbonReduced := lit 0 0;
     efficiencyGain := lit 12 0;
     temperature := lit 0 0;
     solarIrradiance := lit 0 0;
     energyPrice := lit 0 0;
     renewablePct := lit 0 0;
     sustainabilityScore := lit 87 0 |}.

Definition is_string (v : value) : bool :=
  match v with VStr _ => true | _ => false end.

Definition is_first (rq : request) : bool :=
  match rq with First => true | Refresh => false end.

Fixpoint count_first (l : list request) : nat :=
  match l with
  | [] => O
  | rq :: l' => ((if is_first rq then 1 else 0) + count_first l')%nat
  end.

(** The request sent at mount is still in flight. *)
Definition first_pending (l : list request) : bool := existsb is_first l.

End Notions.
Export Notions.

(** * Properties *)

(** ** Strings *)

Lemma str_eqb_eq (a b : jsstring) : str_eqb a b = true <-> a = b.
Proof.
  revert b; induction a as [|x a IH]; intros [|y b]; simpl; try easy.
  unfold cu_eqb. rewrite andb_true_iff, N.eqb_eq, IH.
  split; [intros [-> ->]; reflexivity | intros [= -> ->]; auto].
Qed.

(** ** The matcher is sound for the relational reading *)

Section Soundness.
Variable icase : bool.

Lemma or_else_Some (a b : result) z :
  or_else a b = Some z -> a = Some z \/ b = Some z.
Proof. destruct a; simpl; auto. Qed.

Section Repeat.
Variables (body : matcher) (ids : list nat) (greedy : bool).
Variable Rb : jsstring -> captures -> jsstring -> captures -> Prop.
Hypothesis body_meets : meets Rb body.

Let R := fun s0 c0 => Rb s0 (reset ids c0).

Lemma repeat_free_meets fuel : forall max s c k z,
  repeat_free body ids greedy max fuel s c k = Some z ->
  exists n s' c',
    quant_ok 0 max n /\ rounds R n s c s' c' /\ k s' c' = Some z.
Proof.
  induction fuel as [|fuel IH]; intros max s c k z H.
  - (* no character left: no round can be accepted *)
    simpl in H.
    assert (Hk : k s c = Some z).
    { destruct max as [[|mx]|]; auto;
        destruct greedy; apply or_else_Some in H as [H|H]; auto;
        apply body_meets in H as (? & ? & _ & ?); discriminate. }
    exists O, s, c. repeat split; auto.
    destruct max; simpl; lia.
  - simpl in H.
    assert (Hcases :
      k s c = Some z \/
      (max <> Some O /\
       exists s1 c1, Rb s (reset ids c) s1 c1 /\
         repeat_free body ids greedy (max_pred max) fuel s1 c1 k = Some z)).
    { destruct max as [[|mx]|]; auto;
        destruct greedy; apply or_else_Some in H as [H|H]; auto;
        apply body_meets in H as (s1 & c1 & HR & Hd);
        (destruct (length s1 <? length s)%nat; [|discriminate]);
        right; (split; [discriminate|]); eauto. }
    destruct Hcases as [Hk|(Hmax & s1 & c1 & HR & Hrec)].
    + exists O, s, c. repeat split; auto. destruct max; simpl; lia.
    + apply IH in Hrec as (n & s' & c' & Hok & Hr & Hk).
      exists (S n), s', c'. split; [|split; auto].
      * destruct max as [[|mx]|]; simpl in *; try lia. congruence.
      * simpl. exists s1, c1. auto.
Qed.

Lemma repeat_min_meets min : forall max s c k z,
  repeat_min body ids greedy min max s c k = Some z ->
  exists n s' c',
    quant_ok min max n /\ rounds R n s c s' c' /\ k s' c' = Some z.
Proof.
  induction min as [|min IH]; intros max s c k z H; simpl in H.
  - apply repeat_free_meets in H. exact H.
  - destruct max as [[|mx]|].
    + exists O, s, c. simpl. repeat split; auto.
    + apply body_meets in H as (s1 & c1 & HR & H).
      apply IH in H as (n & s' & c' & Hok & Hr & Hk).
      exists (S n), s', c'. split; [|split; auto].
      * simpl in *. lia.
      * simpl. exists s1, c1. auto.
    + apply body_meets in H as (s1 & c1 & HR & H).
      apply IH in H as (n & s' & c' & Hok & Hr & Hk).
      exists (S n), s', c'. split; [|split; auto].
      * simpl in *. lia.
      * simpl. exists s1, c1. auto.
Qed.
End Repeat.

Theorem m_sound (r : regex) : meets (sem icase r) (m icase r).
Proof.
  induction r as [|ch| |inv rs|r1 IH1 r2 IH2|r1 IH1 r2 IH2
                 |min max g r IH|i r IH]; intros s c k z H; simpl in H.
  - exists s, c. simpl. auto.
  - destruct s as [|x s']; [discriminate|].
    destruct (char_matches icase ch x) eqn:E; [|discriminate].
    exists s', c. simpl. eauto.
  - destruct s as [|x s']; [discriminate|].
    destruct (is_line_terminator x) eqn:E; [discriminate|].
    exists s', c. simpl. eauto.
  - destruct s as [|x s']; [discriminate|].
    destruct (xorb inv (class_mem icase rs x)) eqn:E; [|discriminate].
    exists s', c. simpl. eauto.
  - apply IH1 in H as (s1 & c1 & H1 & H).
    apply IH2 in H as (s2 & c2 & H2 & H).
    exists s2, c2. simpl. eauto.
  - apply or_else_Some in H as [H|H].
    + apply IH1 in H as (s1 & c1 & H1 & H). exists s1, c1. simpl. auto.
    + apply IH2 in H as (s1 & c1 & H1 & H). exists s1, c1. simpl. auto.
  - apply (repeat_min_meets _ _ _ _ IH) in H as (n & s' & c' & Hok & Hr & Hk).
    exists s', c'. simpl. eauto.
  - apply IH in H as (s1 & c1 & H1 & H).
    eexists s1, _. simpl. split; [|exact H]. eauto.
Qed.

End Soundness.

(** ** The fuel of a quantifier is enough *)

Section Fuel.
Variable icase : bool.

Lemma agree_below_le n n' k1 k2 :
  (n' <= n)%nat -> agree_below n k1 k2 -> agree_below n' k1 k2.
Proof. intros Hle H s' c' Hs. apply H. lia. Qed.

Section Repeat.
Variables (body : matcher) (ids : list nat) (greedy : bool).
Hypothesis body_forward : forward body.

Lemma repeat_free_eq max fuel s c k :
  repeat_free body ids greedy max fuel s c k
  = match max with
    | Some O => k s c
    | _ =>
        let d : cont := fun s' c' =>
          match fuel with
          | O => None
          | S fuel' =>
              if (length s' <? length s)%nat
              then repeat_free body ids greedy (max_pred max) fuel' s' c' k
              else None
          end in
        if greedy
        then or_else (body s (reset ids c) d) (k s c)
        else or_else (k s c) (body s (reset ids c) d)
    end.
Proof. destruct fuel; reflexivity. Qed.

(** With as much fuel as characters left, or more, the outcome is the
    same: the fuel never runs out before the input does. *)
Lemma repeat_free_fuel f1 : forall f2 max s c k1 k2,
  (length s <= f1)%nat -> (length s <= f2)%nat ->
  agree_below (length s) k1 k2 ->
  repeat_free body ids greedy max f1 s c k1
  = repeat_free body ids greedy max f2 s c k2.
Proof.
  induction f1 as [|f1 IH]; intros f2 max s c k1 k2 H1 H2 Hk;
    rewrite (repeat_free_eq max _ s c k1), (repeat_free_eq max f2 s c k2);
    (destruct max as [[|mx]|]; [apply Hk; lia| |]);
    cbv zeta; rewrite (Hk s c) by lia;
    destruct greedy; f_equal; apply body_forward; intros s' c' Hs';
    destruct f2 as [|f2]; try reflexivity;
    destruct (length s' <? length s)%nat eqn:E; try reflexivity;
    apply Nat.ltb_lt in E; try lia;
    apply IH; try lia; (eapply agree_below_le; [|exact Hk]); lia.
Qed.

Lemma repeat_min_forward min : forall max,
  forward (repeat_min body ids greedy min max).
Proof.
  induction min as [|min IH]; intros max s c k1 k2 Hk; simpl.
  - apply repeat_free_fuel; auto.
  - destruct max as [[|mx]|]; [apply Hk; lia| |];
      apply body_forward; intros s' c' Hs'; apply IH;
      (eapply agree_below_le; [|exact Hk]); lia.
Qed.

End Repeat.

Theorem m_forward (r : regex) : forward (m icase r).
Proof.
  induction r as [|ch| |inv rs|r1 IH1 r2 IH2|r1 IH1 r2 IH2
                 |min max g r IH|i r IH]; intros s c k1 k2 Hk; simpl.
  - apply Hk. lia.
  - destruct s as [|x s']; [reflexivity|].
    destruct (char_matches icase ch x); [|reflexivity]. apply Hk. simpl. lia.
  - destruct s as [|x s']; [reflexivity|].
    destruct (is_line_terminator x); [reflexivity|]. apply Hk. simpl. lia.
  - destruct s as [|x s']; [reflexivity|].
    destruct (xorb inv (class_mem icase rs x)); [|reflexivity].
    apply Hk. simpl. lia.
  - apply IH1. intros s' c' Hs'. apply IH2.
    eapply agree_below_le; [|exact Hk]. lia.
  - rewrite (IH1 s c k1 k2 Hk), (IH2 s c k1 k2 Hk). reflexivity.
  - apply repeat_min_forward; auto.
  - apply IH. intros s' c' Hs'. apply Hk. lia.
Qed.

(** More fuel than the characters left changes nothing. *)
Corollary quantifier_fuel (r : regex) greedy max fuel s c k :
  (length s <= fuel)%nat ->
  repeat_free (m icase r) (group_ids r) greedy max fuel s c k
  = repeat_free (m icase r) (group_ids r) greedy max (length s) s c k.
Proof.
  intros H. apply repeat_free_fuel; auto using m_forward.
  intros s' c' _. reflexivity.
Qed.

End Fuel.

(** ** What a match consumes and what it leaves in the captures *)

Section Matches.
Variable icase : bool.

Lemma rounds_suffix R n : forall s c s' c',
  (forall s0 c0 s1 c1, R s0 c0 s1 c1 -> s1 `suffix_of` s0) ->
  rounds R n s c s' c' -> s' `suffix_of` s.
Proof.
  induction n as [|n IH]; simpl; intros s c s' c' HR H.
  - destruct H as [-> _]. reflexivity.
  - destruct H as (s1 & c1 & H1 & H).
    etrans; [eapply IH; eauto | eapply HR; eauto].
Qed.

(** A match only moves forward. *)
Lemma sem_suffix (r : regex) : forall s c s' c',
  sem icase r s c s' c' -> s' `suffix_of` s.
Proof.
  induction r as [|ch| |inv rs|r1 IH1 r2 IH2|r1 IH1 r2 IH2
                 |min max g r IH|i r IH]; simpl; intros s c s' c' H.
  - destruct H as [-> _]. reflexivity.
  - destruct H as (x & -> & _). apply suffix_cons_r. reflexivity.
  - destruct H as (x & -> & _). apply suffix_cons_r. reflexivity.
  - destruct H as (x & -> & _). apply suffix_cons_r. reflexivity.
  - destruct H as (s1 & c1 & H1 & H2).
    etrans; [eapply IH2; eauto | eapply IH1; eauto].
  - destruct H as [H|H]; eauto.
  - destruct H as (n & _ & H). eapply rounds_suffix; [|exact H].
    intros s0 c0 s1 c1. apply IH.
  - destruct H as (c1 & H & _). eauto.
Qed.

Lemma digit_class_mem inv rs x :
  is_digit_class inv rs = true ->
  xorb inv (class_mem icase rs x) = true -> is_digit x = true.
Proof.
  unfold is_digit_class. destruct inv; simpl; [discriminate|].
  destruct rs as [|[lo hi] [|? ?]]; try discriminate.
  rewrite andb_true_iff, !N.eqb_eq. intros [-> ->].
  unfold class_mem, is_digit, in_range; cbn [existsb].
  destruct icase;
    rewrite ?orb_false_r, ?orb_true_iff, ?andb_true_iff, ?N.leb_le; lia.
Qed.

Lemma sem_starts_with_digit (r : regex) : forall s c s' c',
  starts_with_digit r = true -> sem icase r s c s' c' ->
  exists d t, s = d :: t /\ is_digit d = true /\ s' `suffix_of` t.
Proof.
  induction r as [|ch| |inv rs|r1 IH1 r2 IH2|r1 IH1 r2 IH2
                 |min max g r IH|i r IH]; simpl; intros s c s' c' Hd H;
    try discriminate.
  - destruct H as (x & -> & Hx & _).
    exists x, s'. split; [reflexivity|]. split; [|reflexivity].
    eapply digit_class_mem; eauto.
  - destruct H as (s1 & c1 & H1 & H2).
    destruct (IH1 _ _ _ _ Hd H1) as (d & t & -> & Hdig & Hs).
    exists d, t. repeat split; auto.
    etrans; [eapply sem_suffix; eauto | exact Hs].
  - destruct min as [|min]; [discriminate|].
    destruct max; [discriminate|].
    destruct H as (n & Hok & H). simpl in Hok.
    destruct n as [|n]; [lia|]. simpl in H.
    destruct H as (s1 & c1 & H1 & H).
    destruct (IH _ _ _ _ Hd H1) as (d & t & -> & Hdig & Hs).
    exists d, t. repeat split; auto.
    etrans; [|exact Hs]. eapply rounds_suffix; [|exact H].
    intros s0 c0 s2 c2. apply sem_suffix.
  - destruct H as (c1 & H & _). eauto.
Qed.

Lemma reset_lookup_ne ids (c : captures) i :
  existsb (Nat.eqb i) ids = false -> reset ids c !! i = c !! i.
Proof.
  induction ids as [|j ids IH]; simpl; [reflexivity|].
  rewrite orb_false_iff, Nat.eqb_neq. intros [Hne Hids].
  rewrite lookup_delete_ne by congruence. auto.
Qed.

(** A pattern leaves the groups it does not contain as they were. *)
Lemma sem_keeps_capture i (r : regex) : forall s c s' c',
  mentions i r = false -> sem icase r s c s' c' -> c' !! i = c !! i.
Proof.
  unfold mentions.
  induction r as [|ch| |inv rs|r1 IH1 r2 IH2|r1 IH1 r2 IH2
                 |min max g r IH|j r IH]; simpl; intros s c s' c' Hm H.
  - destruct H as [_ ->]. reflexivity.
  - destruct H as (x & _ & _ & ->). reflexivity.
  - destruct H as (x & _ & _ & ->). reflexivity.
  - destruct H as (x & _ & _ & ->). reflexivity.
  - rewrite existsb_app, orb_false_iff in Hm. destruct Hm as [Hm1 Hm2].
    destruct H as (s1 & c1 & H1 & H2).
    rewrite (IH2 _ _ _ _ Hm2 H2). eauto.
  - rewrite existsb_app, orb_false_iff in Hm. destruct Hm as [Hm1 Hm2].
    destruct H as [H|H]; eauto.
  - destruct H as (n & _ & H). revert s c H.
    induction n as [|n IHn]; simpl; intros s c H.
    + destruct H as [_ ->]. reflexivity.
    + destruct H as (s1 & c1 & H1 & H).
      rewrite (IHn _ _ H), (IH _ _ _ _ Hm H1).
      apply reset_lookup_ne, Hm.
  - rewrite orb_false_iff, Nat.eqb_neq in Hm. destruct Hm as [Hne Hm].
    destruct H as (c1 & H & ->).
    rewrite lookup_insert_ne by congruence. eauto.
Qed.

(** The first group of a pattern such as [(\d+)%] holds a numeral. *)
Lemma sem_captures_number (r : regex) : forall s c s' c',
  captures_number r = true -> sem icase r s c s' c' ->
  exists d w, is_digit d = true /\ c' !! 1%nat = Some (d :: w).
Proof.
  induction r as [|ch| |inv rs|r1 IH1 r2 IH2|r1 IH1 r2 IH2
                 |min max g r IH|i r IH]; simpl; intros s c s' c' Hc H;
    try discriminate.
  - destruct H as (s1 & c1 & H1 & H2).
    apply orb_true_iff in Hc as [Hc|Hc]; [|eauto].
    apply andb_true_iff in Hc as [Hc Hm]. apply negb_true_iff in Hm.
    destruct (IH1 _ _ _ _ Hc H1) as (d & w & Hdig & Hl).
    exists d, w. split; [exact Hdig|].
    rewrite <- Hl. eapply sem_keeps_capture; eauto.
  - apply andb_true_iff in Hc as [Hc1 Hc2]. destruct H as [H|H]; eauto.
  - destruct H as (c1 & H & ->).
    destruct i as [|[|i]].
    + rewrite lookup_insert_ne by discriminate. eauto.
    + destruct (sem_starts_with_digit _ _ _ _ _ Hc H)
        as (d & t & -> & Hdig & Hs).
      apply suffix_length in Hs. simpl length.
      replace (S (length t) - length s')%nat
        with (S (length t - length s')) by lia.
      rewrite lookup_insert_eq. simpl. eauto.
    + rewrite lookup_insert_ne by discriminate. eauto.
Qed.

End Matches.

(** ** Numbers: rounding never produces NaN *)

Section Rounding.

Lemma shr_1_nonneg mrs : 0 <= shr_m mrs -> 0 <= shr_m (shr_1 mrs).
Proof.
  destruct mrs as [mm r t]; destruct mm as [|[p|p|]|[p|p|]]; simpl; lia.
Qed.

Lemma iter_shr_1_nonneg p : forall mrs,
  0 <= shr_m mrs -> 0 <= shr_m (SpecFloat.iter_pos shr_1 p mrs).
Proof.
  induction p as [p IH|p IH|]; simpl; intros mrs H;
    auto using shr_1_nonneg.
Qed.

Lemma shr_fexp_nonneg mm e l :
  0 <= mm -> 0 <= shr_m (fst (shr_fexp prec emax mm e l)).
Proof.
  intros H. unfold shr_fexp, shr.
  assert (H0 : 0 <= shr_m (shr_record_of_loc mm l))
    by (destruct l as [|[]]; exact H).
  destruct (fexp prec emax (Zdigits2 mm + e) - e); simpl; auto.
  apply iter_shr_1_nonneg, H0.
Qed.

Lemma round_nearest_even_nonneg mx lx :
  0 <= mx -> 0 <= round_nearest_even mx lx.
Proof.
  intros H. unfold round_nearest_even.
  destruct lx as [|[]]; try destruct (Z.even mx); lia.
Qed.

Lemma binary_round_aux_not_nan sx mx ex lx :
  0 <= mx -> is_nan (binary_round_aux prec emax sx mx ex lx) = false.
Proof.
  intros H. unfold binary_round_aux.
  pose proof (shr_fexp_nonneg mx ex lx H) as H1.
  destruct (shr_fexp prec emax mx ex lx) as [mrs' e']. simpl in H1.
  pose proof (shr_fexp_nonneg _ e' loc_Exact
                (round_nearest_even_nonneg _ (loc_of_shr_record mrs') H1))
    as H2.
  destruct (shr_fexp prec emax _ e' loc_Exact) as [mrs'' e'']. simpl in H2.
  destruct (shr_m mrs''); [reflexivity| |lia].
  destruct (e'' <=? emax - prec); reflexivity.
Qed.

Lemma binary_round_not_nan sx mx ex :
  is_nan (binary_round prec emax sx mx ex) = false.
Proof.
  unfold binary_round. destruct (shl_align _ _ _) as [mz ez].
  apply binary_round_aux_not_nan. lia.
Qed.

Lemma number_of_decimal_not_nan neg mm e10 :
  is_nan (number_of_decimal neg mm e10) = false.
Proof.
  unfold number_of_decimal. destruct mm as [|p]; [reflexivity|].
  destruct (0 <=? e10) eqn:E; [apply binary_round_not_nan|].
  apply Z.leb_gt in E. unfold SFdiv_core_binary.
  set (m' := match _ - _ with Z0 => _ | Zpos _ => _ | Zneg _ => _ end).
  assert (Hm' : 0 <= m').
  { subst m'. destruct (_ - _); try lia. apply Z.shiftl_nonneg. lia. }
  assert (H10 : 0 < 10 ^ (- e10)) by (apply Z.pow_pos_nonneg; lia).
  pose proof (Z.div_pos m' _ Hm' H10) as Hq. unfold Z.div in Hq.
  destruct (Z.div_eucl m' (10 ^ (- e10))) as [q r]. simpl in Hq.
  apply binary_round_aux_not_nan, Hq.
Qed.

Lemma or_num_not_nan a b : is_nan b = false -> is_nan (or_num a b) = false.
Proof. unfold or_num. destruct a; simpl; auto. Qed.

End Rounding.

(** ** parseFloat on a string that starts with a digit *)

Lemma digit_bounds d : is_digit d = true <-> (48 <= d <= 57)%N.
Proof.
  unfold is_digit, in_range. rewrite andb_true_iff, !N.leb_le. reflexivity.
Qed.

Lemma parseFloat_numeral d w :
  is_digit d = true -> is_nan (parseFloat (d :: w)) = false.
Proof.
  intros Hd. pose proof (proj1 (digit_bounds d) Hd) as Hb.
  unfold parseFloat.
  assert (Hw : is_white d = false).
  { unfold is_white, in_range.
    rewrite !orb_false_iff, !andb_false_iff, !N.leb_gt, !N.eqb_neq. lia. }
  assert (Hs : take_sign (d :: w) = (false, d :: w)).
  { unfold take_sign.
    destruct (N.eqb_spec d 43); [lia|]. destruct (N.eqb_spec d 45); [lia|].
    reflexivity. }
  assert (Hi : starts_with (js "Infinity") (d :: w) = None).
  { change (starts_with (js "Infinity") (d :: w))
      with (if cu_eqb 73%N d then starts_with (js "nfinity") w else None).
    unfold cu_eqb. rewrite (proj2 (N.eqb_neq 73%N d)) by lia. reflexivity. }
  simpl trim_start. rewrite Hw, Hs, Hi. simpl span_digits. rewrite Hd.
  destruct (span_digits w) as [ds r]. destruct (fraction_part r) as [fp t3].
  simpl. apply number_of_decimal_not_nan.
Qed.

(** ** [match]: the first position at which the pattern matches *)

Section Exec.
Variable re : RegExp.

Lemma exec_from_none : forall (s : jsstring) (i : nat),
  (forall j, (j <= length s)%nat -> match_at re (drop j s) = None) ->
  exec_from re i s = None.
Proof.
  induction s as [|x s IH]; intros i H;
    pose proof (H O ltac:(simpl; lia)) as H0; rewrite drop_0 in H0;
    simpl; rewrite H0; [reflexivity|].
  apply IH. intros j Hj. apply (H (S j)). simpl. lia.
Qed.

Lemma exec_from_first : forall (j : nat) (s : jsstring) (i : nat) rest caps,
  (j <= length s)%nat ->
  match_at re (drop j s) = Some (rest, caps) ->
  (forall j', (j' < j)%nat -> match_at re (drop j' s) = None) ->
  exists a, exec_from re i s = Some a
            /\ groups a = caps /\ index a = (i + j)%nat.
Proof.
  induction j as [|j IH]; intros s i rest caps Hj Hm Hfirst.
  - rewrite drop_0 in Hm. destruct s; simpl; rewrite Hm;
      eexists; (split; [reflexivity|]); simpl; split; auto; lia.
  - destruct s as [|x s]; [simpl in Hj; lia|].
    pose proof (Hfirst O ltac:(lia)) as H0. rewrite drop_0 in H0.
    simpl. rewrite H0.
    destruct (IH s (S i) rest caps) as (a & Ha & Hg & Hi); auto.
    + simpl in Hj. lia.
    + intros j' Hj'. apply (Hfirst (S j')). lia.
    + exists a. repeat split; auto. lia.
Qed.

Lemma exec_from_some : forall (s : jsstring) (i : nat) a,
  exec_from re i s = Some a ->
  exists t rest, t `suffix_of` s /\ match_at re t = Some (rest, groups a).
Proof.
  induction s as [|x s IH]; intros i a H; simpl in H.
  - destruct (match_at re []) as [[s' caps]|] eqn:E; [|discriminate].
    injection H as <-. exists [], s'. split; [reflexivity|exact E].
  - destruct (match_at re (x :: s)) as [[s' caps]|] eqn:E.
    + injection H as <-. exists (x :: s), s'. split; [reflexivity|exact E].
    + apply IH in H as (t & rest & Ht & Hm).
      exists t, rest. split; [apply suffix_cons_r, Ht|exact Hm].
Qed.

(** A pattern like the ones of [fetchLiveMetrics] never makes
    [extractNumber] return [NaN]. *)
Lemma extractNumber_not_nan (text : jsstring) :
  captures_number (source re) = true ->
  is_nan (extractNumber text re) = false.
Proof.
  intros Hc. unfold extractNumber, String_match.
  destruct (exec_from re 0 text) as [a|] eqn:E; [|reflexivity].
  apply exec_from_some in E as (t & rest & _ & Hm).
  apply m_sound in Hm as (s' & c' & Hsem & Hk).
  injection Hk as _ Hg.
  destruct (sem_captures_number _ _ _ _ _ _ Hc Hsem) as (d & w & Hd & Hl).
  subst c'. unfold capture. rewrite Hl. simpl.
  apply parseFloat_numeral, Hd.
Qed.

End Exec.

(** ** extractNumber *)

Example lit_85_5 : lit 855 (-1) = S754_finite false 6016527627190272 (-46).
Proof. vm_compute. reflexivity. Qed.

(** C4.  [extractNumber] returns [parseFloat] of the first capture group
    of the first match: the match at the least index at which the
    pattern matches; it returns 0 when the pattern matches at no index.
    On ["Saved $85.50 today"] the dollar pattern gives 85.5, on
    ["no numbers here"] it gives 0. *)
Theorem extractNumber_first_match (text : jsstring) (regex : RegExp) :
  ((forall j, (j <= length text)%nat -> match_at regex (drop j text) = None) ->
   extractNumber text regex = lit 0 0)
  /\ (forall j rest caps,
        (j <= length text)%nat ->
        match_at regex (drop j text) = Some (rest, caps) ->
        (forall j', (j' < j)%nat -> match_at regex (drop j' text) = None) ->
        extractNumber text regex
        = parseFloat (ToString_capture (caps !! 1%nat)))
  /\ extractNumber (js "Saved $85.50 today") re_costSavings = lit 855 (-1)
  /\ extractNumber (js "no numbers here") re_costSavings = lit 0 0.
Proof.
  split; [|split; [|split]].
  - intros H. unfold extractNumber, String_match.
    rewrite exec_from_none by exact H. reflexivity.
  - intros j rest caps Hj Hm Hfirst. unfold extractNumber, String_match.
    destruct (exec_from_first regex j text 0 rest caps Hj Hm Hfirst)
      as (a & -> & Hg & _).
    unfold capture. rewrite Hg. reflexivity.
  - vm_compute. reflexivity.
  - vm_compute. reflexivity.
Qed.

(** The first match of the dollar pattern in ["Saved $85.50 today"] is at
    index 6, and its first group is ["85.50"]. *)
Lemma extractNumber_first_match_witness :
  extractNumber (js "Saved $85.50 today") re_costSavings
  = parseFloat (ToString_capture (Some (js "85.50"))).
Proof.
  refine (proj1 (proj2
            (extractNumber_first_match (js "Saved $85.50 today")
               re_costSavings))
          6%nat (js " today") {[ 1%nat := js "85.50" ]} _ _ _).
  - simpl. lia.
  - vm_compute. reflexivity.
  - intros j' Hj'.
    do 6 (destruct j' as [|j']; [vm_compute; reflexivity|]). lia.
Defined.

(** C10.  [extractNumber] can return [NaN]: on a pattern without a
    first group ([match[1]] is [undefined]), and on a pattern whose
    first group matches the empty string. *)
Theorem extractNumber_can_return_NaN :
  (exists text regex a,
     String_match text regex = Some a /\ capture a 1 = None
     /\ extractNumber text regex = NaN)
  /\ (exists text regex a,
        String_match text regex = Some a /\ capture a 1 = Some []
        /\ extractNumber text regex = NaN).
Proof.
  split.
  - exists (js "Saved $5"), {| source := Char 36%N; ignoreCase := false |}.
    eexists. split; [vm_compute; reflexivity|].
    split; vm_compute; reflexivity.
  - exists (js "none"),
      {| source := Group 1 (Star digit); ignoreCase := false |}.
    eexists. split; [vm_compute; reflexivity|].
    split; vm_compute; reflexivity.
Qed.

(** ** fetchLiveMetrics *)

(** The promise of [fetchLiveMetrics] is always fulfilled: with the
    object built from the text, or with the fallback object. *)
Lemma fetchLiveMetrics_eq (o : FetchOutcome) :
  fetchLiveMetrics o
  = Normal match text_of o with
           | Some s => snapshot_of_text s
           | None => fallback
           end.
Proof.
  destruct o as [|[st stt [json|]]]; try reflexivity.
  destruct json as [| |b|x|s|l|props]; try reflexivity.
  unfold fetchLiveMetrics, fetchLiveMetrics_try, text_of; simpl.
  destruct (assoc (js "response") props) as [v|]; [|reflexivity].
  destruct v as [| |[]|[]|[|]|l|p]; reflexivity.
Qed.

Lemma snapshot_of_text_numeric (s : jsstring) : numeric (snapshot_of_text s).
Proof.
  unfold numeric, snapshot_of_text;
    cbn [costSavingsToday carbonReduced efficiencyGain temperature
         solarIrradiance energyPrice renewablePct sustainabilityScore].
  repeat apply conj;
    try (apply extractNumber_not_nan; reflexivity);
    try (apply or_num_not_nan); apply number_of_decimal_not_nan.
Qed.

Lemma fallback_numeric : numeric fallback.
Proof.
  unfold numeric, fallback;
    cbn [costSavingsToday carbonReduced efficiencyGain temperature
         solarIrradiance energyPrice renewablePct sustainabilityScore].
  repeat apply conj; apply number_of_decimal_not_nan.
Qed.

(** C9.  Whatever the request does, the promise of [fetchLiveMetrics] is
    fulfilled with an object whose [sustainabilityScore] is 87. *)
Theorem sustainabilityScore_is_87 (o : FetchOutcome) :
  exists m, fetchLiveMetrics o = Normal m /\ sustainabilityScore m = lit 87 0.
Proof.
  rewrite fetchLiveMetrics_eq. eexists. split; [reflexivity|].
  destruct (text_of o); reflexivity.
Qed.

(** C3, as stated, fails: with [data.cost_savings = 42] next to a text
    that names $99, the snapshot's cost savings are 99. *)
Lemma structured_data_is_not_read :
  exists m,
    fetchLiveMetrics (Samples.text_99_data Samples.cost_savings_42) = Normal m
    /\ costSavingsToday m = lit 99 0
    /\ costSavingsToday m <> lit 42 0.
Proof.
  eexists. split; [vm_compute; reflexivity|].
  split; [vm_compute; reflexivity | vm_compute; discriminate].
Qed.

(** C3, amended.  The snapshot is assembled from the response text
    alone: two replies with the same [response] give the same snapshot,
    whatever else, structured data included, they carry. *)
Theorem snapshot_from_text_only (r1 r2 : Response) (j1 j2 : value) :
  body r1 = Some j1 -> body r2 = Some j2 ->
  Get j1 (js "response") = Get j2 (js "response") ->
  fetchLiveMetrics (Responded r1) = fetchLiveMetrics (Responded r2).
Proof.
  intros H1 H2 HG.
  unfold fetchLiveMetrics, fetchLiveMetrics_try, Response_json. simpl.
  rewrite H1, H2. simpl. rewrite HG. reflexivity.
Qed.

(** The same text with [data.cost_savings = 42] and with [data] null. *)
Lemma snapshot_from_text_only_witness :
  fetchLiveMetrics (Samples.text_99_data Samples.cost_savings_42)
  = fetchLiveMetrics (Samples.text_99_data VNull).
Proof.
  unfold Samples.text_99_data, Samples.json_reply.
  eapply snapshot_from_text_only; reflexivity.
Defined.

(** ** The poller *)

Section PollerFacts.
Context {View : Type}.
Variable settle : request -> FetchOutcome -> View -> View.

Local Abbreviation step := (Poller.step settle).
Local Abbreviation run := (Poller.run settle).

(** What holds of the view at mount and is kept by every callback
    holds all along. *)
Lemma run_invariant (P : View -> Prop) :
  (forall rq o v, P v -> P (settle rq o v)) ->
  forall evs st, P (view st) -> P (view (run st evs)).
Proof.
  intros Hsettle. induction evs as [|ev evs IH]; intros st H; [exact H|].
  simpl. apply IH. destruct ev as [|i o|]; simpl.
  - destruct (interval st); exact H.
  - destruct (pending st !! i); simpl; [|exact H].
    unfold set_state. destruct (mounted st); auto.
  - exact H.
Qed.

Lemma step_settle_mounted st i rq o :
  mounted st = true -> pending st !! i = Some rq ->
  view (step st (Settle i o)) = settle rq o (view st).
Proof.
  intros Hm Hp. simpl. rewrite Hp. simpl. unfold set_state.
  rewrite Hm. reflexivity.
Qed.

(** After the unmount nothing is sent and nothing is shown. *)
Lemma step_unmounted st ev :
  mounted st = false -> interval st = false ->
  mounted (step st ev) = false /\ interval (step st ev) = false
  /\ view (step st ev) = view st /\ issued (step st ev) = issued st
  /\ (length (pending (step st ev)) <= length (pending st))%nat.
Proof.
  intros Hm Hi. destruct ev as [|i o|]; simpl.
  - rewrite Hi. auto.
  - destruct (pending st !! i) eqn:E; simpl; auto.
    unfold set_state. rewrite Hm. repeat split; auto.
    rewrite length_delete by eauto. lia.
  - auto.
Qed.

Lemma run_unmounted evs : forall st,
  mounted st = false -> interval st = false ->
  view (run st evs) = view st /\ issued (run st evs) = issued st
  /\ (length (pending (run st evs)) <= length (pending st))%nat.
Proof.
  induction evs as [|ev evs IH]; intros st Hm Hi; simpl; [auto|].
  destruct (step_unmounted st ev Hm Hi) as (Hm' & Hi' & Hv & Hn & Hl).
  destruct (IH _ Hm' Hi') as (Hv2 & Hn2 & Hl2).
  rewrite Hv2, Hn2. repeat split; auto. lia.
Qed.

End PollerFacts.

(** ** MetricsHero *)

Lemma settle_metrics (rq : request) (o : FetchOutcome) (v : MetricsHero.View) :
  MetricsHero.metrics (MetricsHero.settle rq o v)
  = match text_of o with
    | Some s => snapshot_of_text s
    | None => fallback
    end.
Proof.
  unfold MetricsHero.settle. rewrite fetchLiveMetrics_eq.
  destruct rq; reflexivity.
Qed.

Lemma exposed_settle st i rq o :
  mounted st = true -> pending st !! i = Some rq ->
  MetricsHero.exposed (MetricsHero.step st (Settle i o))
  = match text_of o with
    | Some s => snapshot_of_text s
    | None => fallback
    end.
Proof.
  intros Hm Hp. unfold MetricsHero.exposed, MetricsHero.step.
  rewrite (step_settle_mounted _ _ _ _ _ Hm Hp). apply settle_metrics.
Qed.

(** C1, as stated, fails: after a successful request has set the
    snapshot, a request that cannot connect changes it. *)
Lemma failed_fetch_changes_snapshot :
  MetricsHero.exposed
    (MetricsHero.run MetricsHero.mount
       [Settle 0 Samples.saved_10; Tick; Settle 0 Rejected])
  <> MetricsHero.exposed
       (MetricsHero.run MetricsHero.mount [Settle 0 Samples.saved_10]).
Proof.
  intros H. apply (f_equal costSavingsToday) in H.
  vm_compute in H. discriminate.
Qed.

(** C1, amended.  When a request of a mounted view ends without a reply
    (no connection, or a body that is not JSON), the snapshot on display
    becomes the fallback object of the [catch] block, whatever it was. *)
Theorem failed_fetch_shows_fallback st i rq o :
  mounted st = true -> pending st !! i = Some rq -> no_reply o = true ->
  MetricsHero.exposed (MetricsHero.step st (Settle i o)) = fallback.
Proof.
  intros Hm Hp Ho. rewrite (exposed_settle _ _ _ _ Hm Hp).
  destruct o as [|[st0 stt [json|]]]; simpl in *; try discriminate;
    reflexivity.
Qed.

(** A refresh that cannot connect, after a successful first request. *)
Lemma failed_fetch_shows_fallback_witness :
  MetricsHero.exposed
    (MetricsHero.step
       (MetricsHero.run MetricsHero.mount [Settle 0 Samples.saved_10; Tick])
       (Settle 0 Rejected))
  = fallback.
Proof.
  apply (failed_fetch_shows_fallback _ 0%nat Refresh Rejected);
    reflexivity.
Defined.

(** C5, as stated, fails: a figure shown after one request is replaced
    by 0 when the text of the next request has no match for it. *)
Lemma no_match_resets_field :
  costSavingsToday
    (MetricsHero.exposed
       (MetricsHero.run MetricsHero.mount [Settle 0 Samples.saved_10]))
  = lit 10 0
  /\ costSavingsToday
       (MetricsHero.exposed
          (MetricsHero.run MetricsHero.mount
             [Settle 0 Samples.saved_10; Tick; Settle 0 Samples.all_quiet]))
     = lit 0 0
  /\ lit 10 0 <> lit 0 0.
Proof.
  split; [vm_compute; reflexivity|].
  split; [vm_compute; reflexivity | vm_compute; discriminate].
Qed.

(** C5, amended.  When a request of a mounted view is answered with a
    text, each field whose pattern has no match in the text is set to 0,
    and [efficiencyGain] to 12, whatever the field held before. *)
Theorem no_match_gives_zero st i rq (r : Response) props (s : jsstring) :
  mounted st = true -> pending st !! i = Some rq ->
  body r = Some (VObj props) ->
  assoc (js "response") props = Some (VStr s) ->
  let m := MetricsHero.exposed (MetricsHero.step st (Settle i (Responded r))) in
  (String_match s re_costSavings = None -> costSavingsToday m = lit 0 0)
  /\ (String_match s re_carbon = None -> carbonReduced m = lit 0 0)
  /\ (String_match s re_efficiency = None -> efficiencyGain m = lit 12 0)
  /\ (String_match s re_temperature = None -> temperature m = lit 0 0)
  /\ (String_match s re_solar = None -> solarIrradiance m = lit 0 0)
  /\ (String_match s re_energyPrice = None -> energyPrice m = lit 0 0)
  /\ (String_match s re_renewable = None -> renewablePct m = lit 0 0).
Proof.
  intros Hm Hp Hb Hr m. subst m. rewrite (exposed_settle _ _ _ _ Hm Hp).
  unfold text_of. rewrite Hb, Hr.
  unfold snapshot_of_text, extractNumber; simpl.
  repeat split; intros ->; reflexivity.
Qed.

(** A refresh whose text names no dollar amount, after one that did. *)
Lemma no_match_gives_zero_witness :
  costSavingsToday
    (MetricsHero.exposed
       (MetricsHero.step
          (MetricsHero.run MetricsHero.mount [Settle 0 Samples.saved_10; Tick])
          (Settle 0 Samples.all_quiet)))
  = lit 0 0.
Proof.
  refine (proj1 (no_match_gives_zero
                   (MetricsHero.run MetricsHero.mount
                      [Settle 0 Samples.saved_10; Tick])
                   0%nat Refresh
                   {| status := 200; statusText := js "OK";
                      body := Some (VObj Samples.all_quiet_props) |}
                   Samples.all_quiet_props (js "All systems nominal")
                   eq_refl eq_refl eq_refl eq_refl) _).
  vm_compute. reflexivity.
Defined.

(** C2.  The promise of [fetchLiveMetrics] is always fulfilled, with an
    object whose eight fields are numbers other than [NaN]; and whatever
    the timer, the requests and the unmount do, in whatever order, the
    eight fields of the snapshot on display are such numbers. *)
Theorem snapshot_always_numeric :
  (forall o, exists m, fetchLiveMetrics o = Normal m /\ numeric m)
  /\ (forall evs,
        numeric (MetricsHero.exposed (MetricsHero.run MetricsHero.mount evs))).
Proof.
  assert (Hsettle : forall rq o v,
             numeric (MetricsHero.metrics (MetricsHero.settle rq o v))).
  { intros rq o v. rewrite settle_metrics.
    destruct (text_of o);
      [apply snapshot_of_text_numeric | apply fallback_numeric]. }
  split.
  - intros o. rewrite fetchLiveMetrics_eq. eexists. split; [reflexivity|].
    destruct (text_of o);
      [apply snapshot_of_text_numeric | apply fallback_numeric].
  - intros evs. unfold MetricsHero.exposed, MetricsHero.run.
    apply (run_invariant MetricsHero.settle
             (fun v => numeric (MetricsHero.metrics v))).
    + intros rq o v _. apply Hsettle.
    + unfold numeric; simpl. repeat split.
Qed.

(** C7.  Once a view is unmounted its timer is cleared, no request is
    sent any more, and the view's state stays as it was, whatever
    happens later: a request in flight that settles after the unmount
    is taken off the requests pending and its result is dropped.  This
    holds of every view that polls in this way, and so of the snapshot
    that MetricsHero shows. *)
Theorem teardown_is_final :
  (forall (View : Type) (settle : request -> FetchOutcome -> View -> View)
          (st : state) (evs : list event),
      let st0 := Poller.step settle st Unmount in
      let st1 := Poller.run settle st0 evs in
      interval st0 = false
      /\ issued st1 = issued st0
      /\ view st1 = view st0
      /\ (length (pending st1) <= length (pending st0))%nat)
  /\ (forall (st : state) (evs : list event),
        MetricsHero.exposed
          (MetricsHero.run (MetricsHero.step st Unmount) evs)
        = MetricsHero.exposed (MetricsHero.step st Unmount)).
Proof.
  split.
  - intros View settle st evs st0 st1.
    destruct (run_unmounted settle evs st0 eq_refl eq_refl) as (Hv & Hn & Hl).
    auto.
  - intros st evs. unfold MetricsHero.exposed, MetricsHero.run.
    destruct (run_unmounted MetricsHero.settle evs
                (MetricsHero.step st Unmount) eq_refl eq_refl) as (Hv & _).
    rewrite Hv. reflexivity.
Qed.

(** ** The gateways *)

(** C6, as stated, fails: [invokeClimateAgent] throws to its caller on a
    network failure and on a status that is not 2xx; and [callAgent],
    which does not look at the status code, returns a 500 reply whose
    JSON body has no [status] of ["error"] as an ordinary answer. *)
Lemma gateway_errors_do_not_collapse :
  invokeClimateAgent (js "Get current metrics") Rejected = Throw TypeError
  /\ invokeClimateAgent (js "Get current metrics") Samples.backend_error
     = Throw (Error (js "Agent invocation failed: Internal Server Error"))
  /\ FloatingChat_callAgent (fun _ => js "0") (js "Get current metrics")
       Samples.partial_500
     = Normal {| text := VStr (js "partial"); data := VUndefined |}.
Proof. repeat apply conj; vm_compute; reflexivity. Qed.

Section CallAgent.
Variable Number_toString : number -> jsstring.

Local Abbreviation floating := (FloatingChat_callAgent Number_toString).
Local Abbreviation integrated := (IntegratedChat_callAgent Number_toString).

Lemma try_catch_total {A : Type} (body : completion A) (a : A) :
  exists r, try_catch body (fun _ => Normal a) = Normal r.
Proof. destruct body; simpl; eauto. Qed.

Lemma callAgent_no_reply query o :
  no_reply o = true ->
  floating query o
  = Normal {| text := VStr connect_error; data := VUndefined |}
  /\ integrated query o = Normal (VStr connect_error).
Proof.
  destruct o as [|[st stt [json|]]]; simpl; try discriminate;
    intros _; split; reflexivity.
Qed.

Lemma callAgent_backend_error query (r : Response) props (msg : jsstring) :
  body r = Some (VObj props) ->
  assoc (js "status") props = Some (VStr (js "error")) ->
  assoc (js "message") props = Some (VStr msg) ->
  floating query (Responded r)
  = Normal {| text := VStr (warning_prefix ++ msg); data := VUndefined |}
  /\ integrated query (Responded r) = Normal (VStr (warning_prefix ++ msg)).
Proof.
  intros Hb Hs Hm.
  unfold FloatingChat_callAgent, IntegratedChat_callAgent, Response_json.
  simpl. rewrite Hb. simpl. rewrite Hs. simpl. rewrite Hm.
  split; reflexivity.
Qed.

End CallAgent.

(** C6, amended.  [callAgent], in both chat components, never throws to
    its caller.  A request without a reply (no connection, or a body
    that is not JSON) and a reply whose [status] is ["error"] with a
    message both come back as a result with a short text, the cross
    mark with "Error connecting to agent" for the first, the warning
    sign with the message for the second, and without structured
    data. *)
Theorem callAgent_never_throws
    (Number_toString : number -> jsstring) (query : jsstring)
    (o : FetchOutcome) :
  (exists r, FloatingChat_callAgent Number_toString query o = Normal r)
  /\ (exists v, IntegratedChat_callAgent Number_toString query o = Normal v)
  /\ (no_reply o = true ->
      FloatingChat_callAgent Number_toString query o
      = Normal {| text := VStr connect_error; data := VUndefined |}
      /\ IntegratedChat_callAgent Number_toString query o
         = Normal (VStr connect_error))
  /\ (forall r props msg,
        o = Responded r ->
        body r = Some (VObj props) ->
        assoc (js "status") props = Some (VStr (js "error")) ->
        assoc (js "message") props = Some (VStr msg) ->
        FloatingChat_callAgent Number_toString query o
        = Normal {| text := VStr (warning_prefix ++ msg);
                    data := VUndefined |}
        /\ IntegratedChat_callAgent Number_toString query o
           = Normal (VStr (warning_prefix ++ msg))).
Proof.
  split; [apply try_catch_total|].
  split; [apply try_catch_total|].
  split; [apply callAgent_no_reply|].
  intros r props msg ->. apply callAgent_backend_error.
Qed.

(** The backend reports "Agent timed out". *)
Lemma callAgent_never_throws_witness :
  FloatingChat_callAgent (fun _ => js "0") (js "Get current metrics")
    Samples.backend_error
  = Normal {| text := VStr (warning_prefix ++ js "Agent timed out");
              data := VUndefined |}.
Proof.
  refine (proj1 (proj2 (proj2 (proj2
            (callAgent_never_throws (fun _ => js "0")
               (js "Get current metrics") Samples.backend_error)))
            _ _ (js "Agent timed out") eq_refl eq_refl eq_refl eq_refl)).
Defined.

(** ** The response cache *)

Section CacheFacts.
Import ResponseCache.
Variable reason : jsstring -> option Payload.

Local Abbreviation invoke := (ResponseCache.invoke reason).
Local Abbreviation serve := (ResponseCache.serve reason).
Local Abbreviation consistent := (ResponseCache.consistent reason).

Lemma consistent_empty : consistent ∅.
Proof. intros p e H. rewrite lookup_empty in H. discriminate. Qed.

Lemma consistent_delete (c : cache) k :
  consistent c -> consistent (delete k c).
Proof.
  intros Hc p e H. apply lookup_delete_Some in H as [_ H]. eauto.
Qed.

Lemma consistent_store (c : cache) now prompt p :
  consistent c -> reason prompt = Some p ->
  consistent (store now prompt p c).
Proof.
  intros Hc Hr q e H. unfold store in H.
  apply lookup_insert_Some in H as [[<- <-]|[_ H]]; [exact Hr|].
  destruct (CAPACITY <=? size c)%nat; [|eauto].
  unfold evict_oldest in H. destruct (oldest c); [|eauto].
  eapply consistent_delete; eauto.
Qed.

Lemma miss_consistent (c : cache) now prompt :
  consistent c -> consistent (snd (miss reason now prompt c)).
Proof.
  intros Hc. unfold miss. destruct (reason prompt) eqn:E; simpl; auto.
  apply consistent_store; auto.
Qed.

Lemma invoke_consistent (c : cache) now prompt :
  consistent c -> consistent (snd (invoke now prompt c)).
Proof.
  intros Hc. unfold ResponseCache.invoke.
  destruct (c !! prompt) as [e|]; [destruct (valid now e)|]; simpl; auto.
  - apply miss_consistent, consistent_delete, Hc.
  - apply miss_consistent, Hc.
Qed.

Lemma serve_consistent reqs : forall c : cache,
  consistent c -> consistent (serve c reqs).
Proof.
  induction reqs as [|[now prompt] reqs IH]; intros c Hc; simpl; auto.
  apply IH, invoke_consistent, Hc.
Qed.

(** On a cache filled from the backend, a hit and a fresh reasoning
    call cannot be told apart. *)
Lemma invoke_result (c : cache) now prompt :
  consistent c ->
  fst (invoke now prompt c)
  = match reason prompt with
    | Some p => Success p
    | None => Failure
    end.
Proof.
  intros Hc. unfold ResponseCache.invoke, miss.
  destruct (c !! prompt) as [e|] eqn:E; [destruct (valid now e)|]; simpl.
  - rewrite (Hc _ _ E). reflexivity.
  - destruct (reason prompt); reflexivity.
  - destruct (reason prompt); reflexivity.
Qed.

(** An entry made at [t1] answers a request at [t2] within the TTL
    without a reasoning call, whatever the backend would say then. *)
Lemma fresh_entry_is_served (reason' : jsstring -> option Payload)
    (c : cache) t1 t2 prompt p :
  t2 - t1 < TTL ->
  ResponseCache.invoke reason' t2 prompt (store t1 prompt p c)
  = (Success p, store t1 prompt p c).
Proof.
  intros Ht. unfold ResponseCache.invoke, store.
  rewrite lookup_insert_eq. unfold valid. simpl.
  destruct (Z.ltb_spec (t2 - t1) TTL); [reflexivity|lia].
Qed.

End CacheFacts.

(** C8.  With a backend that gives the same payload for the same prompt,
    on a cache filled from it, two requests with the same prompt less
    than the TTL apart get the same result, whatever other requests are
    served in between; and the entry that the first request makes
    answers the second one by itself, without a reasoning call. *)
Theorem cache_idempotence
    (reason : jsstring -> option ResponseCache.Payload)
    (history between : list (Z * jsstring)) (t1 t2 : Z) (prompt : jsstring) :
  t1 <= t2 -> t2 - t1 < ResponseCache.TTL ->
  let c := ResponseCache.serve reason ∅ history in
  let first := ResponseCache.invoke reason t1 prompt c in
  fst (ResponseCache.invoke reason t2 prompt
         (ResponseCache.serve reason (snd first) between))
  = fst first
  /\ (forall reason' p,
        c !! prompt = None -> reason prompt = Some p ->
        ResponseCache.invoke reason' t2 prompt (snd first)
        = (ResponseCache.Success p, snd first)).
Proof.
  intros _ Httl c first. subst first. split.
  - assert (Hc : ResponseCache.consistent reason c)
      by apply serve_consistent, consistent_empty.
    rewrite !invoke_result; auto.
    apply serve_consistent, invoke_consistent, Hc.
  - intros reason' p Hnone Hp.
    unfold ResponseCache.invoke at 2 3. rewrite Hnone.
    unfold ResponseCache.miss. rewrite Hp. simpl.
    apply fresh_entry_is_served, Httl.
Qed.

(** The metrics prompt at 0 s and at 299 s, another prompt in between. *)
Lemma cache_idempotence_witness :
  fst (ResponseCache.invoke Samples.steady_backend 299 (js "Get current metrics")
         (ResponseCache.serve Samples.steady_backend
            (snd (ResponseCache.invoke Samples.steady_backend 0
                    (js "Get current metrics") ∅))
            [(120, js "Calculate current sustainability score")]))
  = fst (ResponseCache.invoke Samples.steady_backend 0
           (js "Get current metrics") ∅).
Proof.
  refine (proj1 (cache_idempotence Samples.steady_backend []
                   [(120, js "Calculate current sustainability score")]
                   0 299 (js "Get current metrics") _ _)).
  - lia.
  - reflexivity.
Defined.

(** * Further properties of the code *)

(** ** fetchLiveMetrics: what the snapshot can and cannot hold *)

(** X1.  Whatever the request does, the [efficiencyGain] that
    [fetchLiveMetrics] delivers is never 0 (nor [NaN]): a missing or
    zero figure is replaced by 12. *)
Theorem efficiencyGain_never_zero (o : FetchOutcome) :
  exists m, fetchLiveMetrics o = Normal m
            /\ truthy_num (efficiencyGain m) = true.
Proof.
  rewrite fetchLiveMetrics_eq. eexists. split; [reflexivity|].
  destruct (text_of o) as [s|]; [|reflexivity].
  unfold snapshot_of_text, or_num; simpl.
  destruct (truthy_num (extractNumber s re_efficiency)) eqn:E;
    [exact E | reflexivity].
Qed.

Section Signs.

Lemma binary_round_aux_sign sx mx ex lx :
  0 <= mx -> sign_bit (binary_round_aux prec emax sx mx ex lx) = sx.
Proof.
  intros H. unfold binary_round_aux.
  pose proof (shr_fexp_nonneg mx ex lx H) as H1.
  destruct (shr_fexp prec emax mx ex lx) as [mrs' e']. simpl in H1.
  pose proof (shr_fexp_nonneg _ e' loc_Exact
                (round_nearest_even_nonneg _ (loc_of_shr_record mrs') H1))
    as H2.
  destruct (shr_fexp prec emax _ e' loc_Exact) as [mrs'' e'']. simpl in H2.
  destruct (shr_m mrs''); [reflexivity| |lia].
  destruct (e'' <=? emax - prec); reflexivity.
Qed.

Lemma number_of_decimal_sign neg mm e10 :
  sign_bit (number_of_decimal neg mm e10) = neg.
Proof.
  unfold number_of_decimal. destruct mm as [|p]; [reflexivity|].
  destruct (0 <=? e10) eqn:E.
  - unfold binary_round. destruct (shl_align _ _ _) as [mz ez].
    apply binary_round_aux_sign. lia.
  - apply Z.leb_gt in E. unfold SFdiv_core_binary.
    set (m' := match _ - _ with Z0 => _ | Zpos _ => _ | Zneg _ => _ end).
    assert (Hm' : 0 <= m').
    { subst m'. destruct (_ - _); try lia. apply Z.shiftl_nonneg. lia. }
    assert (H10 : 0 < 10 ^ (- e10)) by (apply Z.pow_pos_nonneg; lia).
    pose proof (Z.div_pos m' _ Hm' H10) as Hq. unfold Z.div in Hq.
    destruct (Z.div_eucl m' (10 ^ (- e10))) as [q r]. simpl in Hq.
    apply binary_round_aux_sign, Hq.
Qed.

(** A numeral that starts with a digit has no sign to read. *)
Lemma parseFloat_numeral_sign d w :
  is_digit d = true -> sign_bit (parseFloat (d :: w)) = false.
Proof.
  intros Hd. pose proof (proj1 (digit_bounds d) Hd) as Hb.
  unfold parseFloat.
  assert (Hw : is_white d = false).
  { unfold is_white, in_range.
    rewrite !orb_false_iff, !andb_false_iff, !N.leb_gt, !N.eqb_neq. lia. }
  assert (Hs : take_sign (d :: w) = (false, d :: w)).
  { unfold take_sign.
    destruct (N.eqb_spec d 43); [lia|]. destruct (N.eqb_spec d 45); [lia|].
    reflexivity. }
  assert (Hi : starts_with (js "Infinity") (d :: w) = None).
  { change (starts_with (js "Infinity") (d :: w))
      with (if cu_eqb 73%N d then starts_with (js "nfinity") w else None).
    unfold cu_eqb. rewrite (proj2 (N.eqb_neq 73%N d)) by lia. reflexivity. }
  simpl trim_start. rewrite Hw, Hs, Hi. simpl span_digits. rewrite Hd.
  destruct (span_digits w) as [ds r]. destruct (fraction_part r) as [fp t3].
  simpl. apply number_of_decimal_sign.
Qed.

Lemma extractNumber_sign (re : RegExp) (text : jsstring) :
  captures_number (source re) = true ->
  sign_bit (extractNumber text re) = false.
Proof.
  intros Hc. unfold extractNumber, String_match.
  destruct (exec_from re 0 text) as [a|] eqn:E; [|reflexivity].
  apply exec_from_some in E as (t & rest & _ & Hm).
  apply m_sound in Hm as (s' & c' & Hsem & Hk).
  injection Hk as _ Hg.
  destruct (sem_captures_number _ _ _ _ _ _ Hc Hsem) as (d & w & Hd & Hl).
  subst c'. unfold capture. rewrite Hl. simpl.
  apply parseFloat_numeral_sign, Hd.
Qed.

Lemma snapshot_of_text_unsigned (s : jsstring) :
  unsigned_fields (snapshot_of_text s).
Proof.
  unfold unsigned_fields, snapshot_of_text;
    cbn [costSavingsToday carbonReduced efficiencyGain temperature
         solarIrradiance energyPrice renewablePct sustainabilityScore].
  repeat apply conj;
    try (apply extractNumber_sign; reflexivity);
    try apply number_of_decimal_sign.
  unfold or_num. destruct (truthy_num _).
  - apply extractNumber_sign. reflexivity.
  - apply number_of_decimal_sign.
Qed.

End Signs.

(** X2.  No field of the snapshot on display is ever negative, not even
    a negative zero, whatever the replies say: the patterns capture
    digits only, so the sign of a figure in the text is lost. *)
Theorem snapshot_never_negative (evs : list event) :
  unsigned_fields
    (MetricsHero.exposed (MetricsHero.run MetricsHero.mount evs)).
Proof.
  unfold MetricsHero.exposed, MetricsHero.run.
  apply (run_invariant MetricsHero.settle
           (fun v => unsigned_fields (MetricsHero.metrics v))).
  - intros rq o v _. rewrite settle_metrics.
    destruct (text_of o); [apply snapshot_of_text_unsigned|].
    unfold unsigned_fields, fallback;
      cbn [costSavingsToday carbonReduced efficiencyGain temperature
           solarIrradiance energyPrice renewablePct sustainabilityScore].
    repeat apply conj; apply number_of_decimal_sign.
  - unfold unsigned_fields; simpl. repeat apply conj; reflexivity.
Qed.

(** X3.  A reply whose JSON body has no [response], or a falsy one
    (null, false, 0, the empty string), as every error the backend
    reports has, gives the snapshot of an empty text: 0 in every field
    but [efficiencyGain], 12, and [sustainabilityScore], 87. *)
Theorem missing_response_gives_blank_snapshot
    (r : Response) (json v : value) :
  body r = Some json ->
  Get json (js "response") = Normal v ->
  ToBoolean v = false ->
  fetchLiveMetrics (Responded r) = Normal blank_snapshot.
Proof.
  intros Hb Hg Hv.
  unfold fetchLiveMetrics, fetchLiveMetrics_try, Response_json. simpl.
  rewrite Hb. simpl. rewrite Hg. simpl. unfold or_value. rewrite Hv.
  vm_compute. reflexivity.
Qed.

(** The backend reports an error: no [response] in the body. *)
Lemma missing_response_gives_blank_snapshot_witness :
  fetchLiveMetrics Samples.backend_error = Normal blank_snapshot.
Proof.
  unfold Samples.backend_error.
  eapply missing_response_gives_blank_snapshot; reflexivity.
Defined.

(** X4.  A reply whose [response] is truthy but not a string (a number,
    [true], an array, an object) makes [text.match] throw, and the
    snapshot is the fallback object. *)
Theorem non_string_response_gives_fallback
    (r : Response) (json v : value) :
  body r = Some json ->
  Get json (js "response") = Normal v ->
  ToBoolean v = true -> is_string v = false ->
  fetchLiveMetrics (Responded r) = Normal fallback.
Proof.
  intros Hb Hg Hv Hs.
  unfold fetchLiveMetrics, fetchLiveMetrics_try, Response_json. simpl.
  rewrite Hb. simpl. rewrite Hg. simpl. unfold or_value. rewrite Hv.
  destruct v; try discriminate; reflexivity.
Qed.

(** The [response] is the number 42. *)
Lemma non_string_response_gives_fallback_witness :
  fetchLiveMetrics
    (Samples.json_reply 200 (VObj [(js "response", VNum (lit 42 0))]))
  = Normal fallback.
Proof.
  unfold Samples.json_reply.
  eapply non_string_response_gives_fallback; reflexivity.
Defined.

(** ** MetricsHero: requests that overlap, and the loading state *)

(** X5.  Requests are not serialised: when a request sent earlier
    settles after one sent later, the snapshot on display is the one
    of the earlier request. *)
Theorem last_settled_wins st (i j : nat) rq_i rq_j o_i o_j :
  mounted st = true -> (i < j)%nat ->
  pending st !! i = Some rq_i -> pending st !! j = Some rq_j ->
  MetricsHero.exposed (MetricsHero.run st [Settle j o_j; Settle i o_i])
  = MetricsHero.exposed (MetricsHero.step st (Settle i o_i)).
Proof.
  intros Hm Hij Hi Hj.
  change (MetricsHero.run st [Settle j o_j; Settle i o_i])
    with (MetricsHero.step (MetricsHero.step st (Settle j o_j)) (Settle i o_i)).
  rewrite (exposed_settle st i rq_i o_i Hm Hi).
  apply (exposed_settle _ i rq_i o_i).
  - unfold MetricsHero.step; simpl. rewrite Hj. exact Hm.
  - unfold MetricsHero.step; simpl. rewrite Hj. simpl.
    rewrite list_lookup_delete_lt by exact Hij. exact Hi.
Qed.

(** Two refreshes in flight: the later one names $10, the earlier one
    finds nothing, and settles last. *)
Lemma last_settled_wins_witness :
  MetricsHero.exposed
    (MetricsHero.run
       (MetricsHero.run MetricsHero.mount [Tick; Tick])
       [Settle 2 Samples.saved_10; Settle 1 Samples.all_quiet])
  = MetricsHero.exposed
      (MetricsHero.step
         (MetricsHero.run MetricsHero.mount [Tick; Tick])
         (Settle 1 Samples.all_quiet)).
Proof.
  apply (last_settled_wins _ 1%nat 2%nat Refresh Refresh);
    [reflexivity | lia | reflexivity | reflexivity].
Defined.

Section Loading.

Lemma run_state_invariant {View : Type}
    (settle : request -> FetchOutcome -> View -> View)
    (J : state -> Prop) :
  (forall st ev, J st -> J (Poller.step settle st ev)) ->
  forall evs st, J st -> J (Poller.run settle st evs).
Proof.
  intros Hstep. induction evs as [|ev evs IH]; intros st H; [exact H|].
  simpl. apply IH, Hstep, H.
Qed.

Lemma count_first_app l1 l2 :
  count_first (l1 ++ l2) = (count_first l1 + count_first l2)%nat.
Proof. induction l1 as [|rq l1 IH]; simpl; [reflexivity|]. rewrite IH. lia. Qed.

Lemma count_first_delete (l : list request) : forall i rq,
  l !! i = Some rq ->
  count_first l
  = ((if is_first rq then 1 else 0) + count_first (delete i l))%nat.
Proof.
  induction l as [|x l IH]; intros [|i] rq H; simpl in H; try discriminate.
  - injection H as ->. reflexivity.
  - simpl. rewrite (IH i rq H). lia.
Qed.

Lemma first_pending_count l :
  first_pending l = negb (count_first l =? 0)%nat.
Proof.
  unfold first_pending. induction l as [|[] l IH]; simpl; auto.
Qed.

Lemma settle_isLoading rq o v :
  MetricsHero.isLoading (MetricsHero.settle rq o v)
  = if is_first rq then false else MetricsHero.isLoading v.
Proof.
  unfold MetricsHero.settle. rewrite fetchLiveMetrics_eq.
  destruct rq; reflexivity.
Qed.

End Loading.

(** X6.  As long as the view is mounted, it is loading exactly while
    the request sent at mount is in flight: a refresh that settles
    before it changes the snapshot but leaves the loading state on. *)
Theorem loading_until_first_settles (evs : list event) :
  let st := MetricsHero.run MetricsHero.mount evs in
  mounted st = false
  \/ MetricsHero.isLoading (view st) = first_pending (pending st).
Proof.
  intros st. subst st. unfold MetricsHero.run.
  assert (H : (fun st : state =>
                 (count_first (pending st) <= 1)%nat
                 /\ (mounted st = false
                     \/ MetricsHero.isLoading (view st)
                        = first_pending (pending st)))
              (Poller.run MetricsHero.settle MetricsHero.mount evs)).
  { apply run_state_invariant.
    - intros st ev [Hc Hl]. destruct ev as [|i o|]; simpl.
      + destruct (interval st); simpl; [|auto].
        rewrite count_first_app. simpl. split; [lia|].
        destruct Hl as [Hl|Hl]; [auto|right].
        rewrite Hl, !first_pending_count, count_first_app. simpl.
        rewrite Nat.add_0_r. reflexivity.
      + destruct (pending st !! i) as [rq|] eqn:E; simpl; [|auto].
        pose proof (count_first_delete _ _ _ E) as Hd.
        split; [lia|].
        destruct (mounted st) eqn:Hm; [right|auto].
        destruct Hl as [Hl|Hl]; [discriminate|].
        unfold set_state. rewrite Hm, settle_isLoading.
        rewrite first_pending_count in *.
        destruct rq; simpl in *.
        * replace (count_first (delete i (pending st))) with O by lia.
          reflexivity.
        * rewrite Hl, Hd. reflexivity.
      + auto.
    - simpl. split; [lia|]. right. reflexivity. }
  exact (proj2 H).
Qed.

(** ** The chat gateways *)

(** X7.  The two [callAgent] functions agree: for every request, the
    text that the floating chat shows is what the integrated chat
    returns. *)
Theorem callAgent_variants_agree
    (Number_toString : number -> jsstring) (query : jsstring)
    (o : FetchOutcome) :
  bind (FloatingChat_callAgent Number_toString query o)
    (fun r => Normal (text r))
  = IntegratedChat_callAgent Number_toString query o.
Proof.
  unfold FloatingChat_callAgent, IntegratedChat_callAgent.
  destruct o as [|[st stt [json|]]]; simpl; try reflexivity.
  destruct json as [| |b|x|s|l|props]; simpl; try reflexivity.
  destruct (strict_eq_str _ _); reflexivity.
Qed.

(** X8.  The text that [callAgent] returns is never empty, nor any
    other falsy value: there is always something to show. *)
Theorem callAgent_text_never_empty
    (Number_toString : number -> jsstring) (query : jsstring)
    (o : FetchOutcome) :
  exists r, FloatingChat_callAgent Number_toString query o = Normal r
            /\ ToBoolean (text r) = true.
Proof.
  assert (Hor : forall v, ToBoolean (or_value v (VStr (js "No response")))
                          = true).
  { intros v. unfold or_value. destruct (ToBoolean v) eqn:E; auto. }
  unfold FloatingChat_callAgent.
  destruct o as [|[st stt [json|]]]; simpl; eauto.
  destruct json as [| |b|x|s|l|props]; simpl; eauto.
  destruct (strict_eq_str _ _); simpl; eauto.
Qed.

Lemma integrated_callAgent_truthy
    (Number_toString : number -> jsstring) (query : jsstring)
    (o : FetchOutcome) :
  exists answer,
    IntegratedChat_callAgent Number_toString query o = Normal answer
    /\ ToBoolean answer = true.
Proof.
  assert (Hor : forall v, ToBoolean (or_value v (VStr (js "No response")))
                          = true).
  { intros v. unfold or_value. destruct (ToBoolean v) eqn:E; auto. }
  unfold IntegratedChat_callAgent.
  destruct o as [|[st stt [json|]]]; simpl; eauto.
  destruct json as [| |b|x|s|l|props]; simpl; eauto.
  destruct (strict_eq_str _ _); simpl; eauto.
Qed.

(** X9.  [invokeClimateAgent] hands a value to its caller exactly when
    the response has a 2xx status and a JSON body, and the value is
    that body; in every other case it throws. *)
Theorem invokeClimateAgent_returns_body
    (prompt : jsstring) (o : FetchOutcome) (v : value) :
  invokeClimateAgent prompt o = Normal v
  <-> exists r, o = Responded r /\ ok r = true /\ body r = Some v.
Proof.
  unfold invokeClimateAgent, Response_json. split.
  - destruct o as [|r]; simpl; [discriminate|].
    destruct (ok r) eqn:Hok; simpl; [|discriminate].
    destruct (body r) as [w|] eqn:Hb; simpl; [|discriminate].
    intros [= ->]. eauto.
  - intros (r & -> & Hok & Hb). simpl. rewrite Hok. simpl.
    rewrite Hb. reflexivity.
Qed.

(** ** AWSSpotOptimization: structured data, with the last good values kept *)

Section Spot.
Import SpotOptimization.
Variable formatTimeWindow : value -> value -> jsstring.

Local Abbreviation use_data := (SpotOptimization.use_data formatTimeWindow).
Local Abbreviation fetchSpotData :=
  (SpotOptimization.fetchSpotData formatTimeWindow).
Local Abbreviation settle := (SpotOptimization.settle formatTimeWindow).

Lemma Get_field (data : value) key :
  ToBoolean data = true -> Get data key = Normal (field data key).
Proof. destruct data; simpl; try discriminate; reflexivity. Qed.

Lemma Get_optional_field2 (data : value) key1 key2 :
  Get_optional (field data key1) key2 = Normal (field2 data key1 key2).
Proof.
  unfold field2. destruct (field data key1); reflexivity.
Qed.

Lemma use_data_facts (data : value) (v : View) :
  ToBoolean data = true ->
  let v' := fst (use_data data v) in
  metrics v' = updated data (metrics v)
  /\ isLoading v' = isLoading v
  /\ match isArray (field data (js "optimal_windows")) with
     | Some elems =>
         match map_throwing (window_of formatTimeWindow) elems with
         | Normal ws =>
             snd (use_data data v) = Normal tt /\ spotWindows v' = ws
         | Throw e =>
             snd (use_data data v) = Throw e
             /\ spotWindows v' = spotWindows v
         end
     | None =>
         snd (use_data data v) = Normal tt /\ spotWindows v' = spotWindows v
     end.
Proof.
  intros Hd. unfold SpotOptimization.use_data, updated.
  unfold mbind, action_bind, and_then, eval.
  rewrite !(Get_field data _ Hd), !Get_optional_field2.
  set (c := field data (js "cost_savings_pct")).
  set (r := field data (js "carbon_reduction_pct")).
  set (k := field2 data (js "climate_impact") (js "daily_carbon_saved_kg")).
  set (u := field2 data (js "climate_impact")
              (js "renewable_energy_used_pct")).
  set (ow := field data (js "optimal_windows")).
  destruct (ToBoolean c), (ToBoolean r), (ToBoolean k), (ToBoolean u);
    simpl;
    (destruct (isArray ow) as [elems|] eqn:Ha; simpl; [|auto]);
    (destruct (map_throwing (window_of formatTimeWindow) elems)
       as [ws|e] eqn:Hw; simpl; auto).
Qed.

(** What one request does to the metrics. *)
Lemma settle_metrics_spot rq o (v : View) :
  metrics (settle rq o v)
  = match structured o with
    | Some data => updated data (metrics v)
    | None => metrics v
    end.
Proof.
  unfold SpotOptimization.settle, SpotOptimization.fetchSpotData,
    try_catch_block, structured.
  unfold mbind, action_bind, and_then, eval.
  destruct o as [|[st stt [json|]]]; simpl; try reflexivity.
  destruct json as [| |b|x|s0|l|props]; simpl; try reflexivity.
  destruct (assoc (js "status") props) as [stv|]; simpl; [|reflexivity].
  destruct (strict_eq_str stv (js "success")); simpl; [|reflexivity].
  destruct (assoc (js "data") props) as [data|]; simpl; [|reflexivity].
  destruct (ToBoolean data) eqn:Hd; simpl; [|reflexivity].
  destruct (use_data_facts data v Hd) as (Hm & _ & _).
  destruct (use_data data v) as [v' [[]|e]]; simpl in *; exact Hm.
Qed.

Lemma updated_truthy data m : truthy_metrics m -> truthy_metrics (updated data m).
Proof.
  unfold updated, truthy_metrics. intros (H1 & H2 & H3 & H4).
  destruct (ToBoolean (field data (js "cost_savings_pct"))) eqn:E1,
    (ToBoolean (field data (js "carbon_reduction_pct"))) eqn:E2,
    (ToBoolean (field2 data (js "climate_impact")
                  (js "daily_carbon_saved_kg"))) eqn:E3,
    (ToBoolean (field2 data (js "climate_impact")
                  (js "renewable_energy_used_pct"))) eqn:E4;
    simpl; auto.
Qed.

Lemma settle_loading_spot rq o (v : View) : isLoading (settle rq o v) = false.
Proof.
  unfold SpotOptimization.settle, SpotOptimization.fetchSpotData,
    try_catch_block.
  unfold mbind, action_bind, and_then, eval.
  destruct o as [|[st stt [json|]]]; simpl; try reflexivity.
  destruct json as [| |b|x|s0|l|props]; simpl; try reflexivity.
  destruct (strict_eq_str _ (js "success")); simpl; [|reflexivity].
  destruct (ToBoolean _) eqn:Hd; simpl; [|reflexivity].
  match goal with
  | |- context [SpotOptimization.use_data _ ?d ?w] =>
      destruct (SpotOptimization.use_data formatTimeWindow d w)
        as [v' [[]|e]]
  end; reflexivity.
Qed.

Lemma window_of_constants w sw :
  window_of formatTimeWindow w = Normal sw ->
  onDemand sw = lit 192 (-3) /\ savings sw = lit 75 0.
Proof.
  unfold window_of. destruct w; simpl; try discriminate;
    intros [= <-]; auto.
Qed.

Lemma map_windows_constants elems : forall ws,
  map_throwing (window_of formatTimeWindow) elems = Normal ws ->
  Forall (fun sw => onDemand sw = lit 192 (-3)
                    /\ (savings sw = lit 75 0 \/ savings sw = lit 73 0)) ws.
Proof.
  induction elems as [|w elems IH]; simpl; intros ws H.
  - injection H as <-. constructor.
  - destruct (window_of formatTimeWindow w) as [sw|] eqn:Ew; [|discriminate].
    destruct (map_throwing _ elems) as [ws'|]; [|discriminate].
    injection H as <-. constructor; [|auto].
    destruct (window_of_constants _ _ Ew). auto.
Qed.

Lemma map_throwing_length {A B : Type} (f : A -> completion B) l : forall l',
  map_throwing f l = Normal l' -> length l' = length l.
Proof.
  induction l as [|x l IH]; simpl; intros l' H.
  - injection H as <-. reflexivity.
  - destruct (f x); [|discriminate].
    destruct (map_throwing f l) as [ys|]; [|discriminate].
    injection H as <-. simpl. f_equal. auto.
Qed.

(** The windows after one request: as before, the two of the [catch]
    block, or the ones made from the reply. *)
Lemma settle_windows_spot rq o (v : View) :
  spotWindows (settle rq o v) = spotWindows v
  \/ spotWindows (settle rq o v) = fallback_windows
  \/ exists data elems,
       structured o = Some data
       /\ isArray (field data (js "optimal_windows")) = Some elems
       /\ map_throwing (window_of formatTimeWindow) elems
          = Normal (spotWindows (settle rq o v)).
Proof.
  unfold SpotOptimization.settle, SpotOptimization.fetchSpotData,
    try_catch_block, structured.
  unfold mbind, action_bind, and_then, eval.
  destruct o as [|[st stt [json|]]]; simpl; auto.
  destruct json as [| |b|x|s0|l|props]; simpl; auto.
  destruct (assoc (js "status") props) as [stv|]; simpl; auto.
  destruct (strict_eq_str stv (js "success")); simpl; auto.
  destruct (assoc (js "data") props) as [data|]; simpl; auto.
  destruct (ToBoolean data) eqn:Hd; simpl; auto.
  destruct (use_data_facts data v Hd) as (_ & _ & Hw).
  destruct (isArray (field data (js "optimal_windows"))) as [elems|] eqn:Ha.
  - destruct (map_throwing (window_of formatTimeWindow) elems)
      as [ws|e0] eqn:Hmap; destruct Hw as [Hn Hw];
      destruct (use_data data v) as [v' [[]|e]]; simpl in *;
      try discriminate; auto.
    right. right. exists data, elems. subst ws. auto.
  - destruct Hw as [Hn Hw].
    destruct (use_data data v) as [v' [[]|e]]; simpl in *;
      try discriminate; auto.
Qed.

End Spot.

(** X10.  The four metrics of the spot view never turn falsy (0, empty,
    null, undefined), whatever the replies hold and in whatever order
    requests settle: a value from a reply is taken only when truthy. *)
Theorem spot_metrics_stay_truthy
    (formatTimeWindow : value -> value -> jsstring) (evs : list event) :
  SpotOptimization.truthy_metrics
    (SpotOptimization.metrics
       (view (SpotOptimization.run formatTimeWindow
                SpotOptimization.mount evs))).
Proof.
  unfold SpotOptimization.run.
  apply (run_invariant (SpotOptimization.settle formatTimeWindow)
           (fun v => SpotOptimization.truthy_metrics
                       (SpotOptimization.metrics v))).
  - intros rq o v H. rewrite settle_metrics_spot.
    destruct (SpotOptimization.structured o); [|exact H].
    apply updated_truthy, H.
  - unfold SpotOptimization.truthy_metrics. simpl. auto.
Qed.

(** X11.  A request that brings no structured data (no connection, a
    body that is not JSON, a reply that is not a success, or one without
    [data]) leaves the four metrics as they were. *)
Theorem spot_unsuccessful_request_keeps_metrics
    (formatTimeWindow : value -> value -> jsstring)
    (rq : request) (o : FetchOutcome) (v : SpotOptimization.View) :
  SpotOptimization.structured o = None ->
  SpotOptimization.metrics (SpotOptimization.settle formatTimeWindow rq o v)
  = SpotOptimization.metrics v.
Proof. intros H. rewrite settle_metrics_spot, H. reflexivity. Qed.

(** The backend reports an error. *)
Lemma spot_unsuccessful_request_keeps_metrics_witness :
  SpotOptimization.metrics
    (SpotOptimization.settle (fun _ _ => js "12:00 AM - 12:00 AM") Refresh
       Samples.backend_error SpotOptimization.initial)
  = SpotOptimization.metrics SpotOptimization.initial.
Proof.
  apply (spot_unsuccessful_request_keeps_metrics
           (fun _ _ => js "12:00 AM - 12:00 AM") Refresh
           Samples.backend_error SpotOptimization.initial).
  reflexivity.
Defined.

(** X12.  After a successful reply with structured data, each metric is
    the reply's value when that is truthy and the previous value
    otherwise, also when the windows of the same reply make the mapping
    throw. *)
Theorem spot_metric_is_new_or_previous
    (formatTimeWindow : value -> value -> jsstring)
    (rq : request) (o : FetchOutcome) (v : SpotOptimization.View)
    (data : value) :
  SpotOptimization.structured o = Some data ->
  let m := SpotOptimization.metrics v in
  let m' := SpotOptimization.metrics
              (SpotOptimization.settle formatTimeWindow rq o v) in
  SpotOptimization.costSavings m'
  = or_value (SpotOptimization.field data (js "cost_savings_pct"))
      (SpotOptimization.costSavings m)
  /\ SpotOptimization.carbonReduction m'
     = or_value (SpotOptimization.field data (js "carbon_reduction_pct"))
         (SpotOptimization.carbonReduction m)
  /\ SpotOptimization.carbonSavedKg m'
     = or_value
         (SpotOptimization.field2 data (js "climate_impact")
            (js "daily_carbon_saved_kg"))
         (SpotOptimization.carbonSavedKg m)
  /\ SpotOptimization.renewableAvg m'
     = or_value
         (SpotOptimization.field2 data (js "climate_impact")
            (js "renewable_energy_used_pct"))
         (SpotOptimization.renewableAvg m).
Proof.
  intros H m m'. subst m m'. rewrite settle_metrics_spot, H.
  unfold SpotOptimization.updated, or_value.
  destruct (ToBoolean (SpotOptimization.field data (js "cost_savings_pct"))),
    (ToBoolean (SpotOptimization.field data (js "carbon_reduction_pct"))),
    (ToBoolean (SpotOptimization.field2 data (js "climate_impact")
                  (js "daily_carbon_saved_kg"))),
    (ToBoolean (SpotOptimization.field2 data (js "climate_impact")
                  (js "renewable_energy_used_pct")));
    simpl; auto.
Qed.

(** X13.  Whatever a request does, once it has settled the spot view is
    no longer loading. *)
Theorem spot_loading_always_ends
    (formatTimeWindow : value -> value -> jsstring)
    (rq : request) (o : FetchOutcome) (v : SpotOptimization.View) :
  SpotOptimization.isLoading
    (SpotOptimization.settle formatTimeWindow rq o v) = false.
Proof. apply settle_loading_spot. Qed.

(** X14.  A request without a reply (no connection, or a body that is
    not JSON) puts the two windows of the [catch] block on display and
    keeps the metrics. *)
Theorem spot_no_reply_shows_fallback_windows
    (formatTimeWindow : value -> value -> jsstring)
    (rq : request) (o : FetchOutcome) (v : SpotOptimization.View) :
  no_reply o = true ->
  SpotOptimization.settle formatTimeWindow rq o v
  = {| SpotOptimization.isLoading := false;
       SpotOptimization.spotWindows := SpotOptimization.fallback_windows;
       SpotOptimization.metrics := SpotOptimization.metrics v |}.
Proof.
  destruct o as [|[st stt [json|]]]; simpl; try discriminate;
    intros _; reflexivity.
Qed.

(** No connection. *)
Lemma spot_no_reply_shows_fallback_windows_witness :
  SpotOptimization.spotWindows
    (SpotOptimization.settle (fun _ _ => js "12:00 AM - 12:00 AM") First
       Rejected SpotOptimization.initial)
  = SpotOptimization.fallback_windows.
Proof.
  rewrite (spot_no_reply_shows_fallback_windows
             (fun _ _ => js "12:00 AM - 12:00 AM") First Rejected
             SpotOptimization.initial eq_refl).
  reflexivity.
Defined.

(** X15.  Every window the spot view ever shows has the on-demand price
    0.192 and savings of 75 (73 for the second window of the [catch]
    block): neither figure is taken or computed from a reply. *)
Theorem spot_window_prices_fixed
    (formatTimeWindow : value -> value -> jsstring) (evs : list event) :
  Forall (fun sw => SpotOptimization.onDemand sw = lit 192 (-3)
                    /\ (SpotOptimization.savings sw = lit 75 0
                        \/ SpotOptimization.savings sw = lit 73 0))
    (SpotOptimization.spotWindows
       (view (SpotOptimization.run formatTimeWindow
                SpotOptimization.mount evs))).
Proof.
  unfold SpotOptimization.run.
  apply (run_invariant (SpotOptimization.settle formatTimeWindow)
           (fun v => Forall _ (SpotOptimization.spotWindows v))).
  - intros rq o v H.
    destruct (settle_windows_spot formatTimeWindow rq o v)
      as [->|[->|(data & elems & _ & _ & Hmap)]]; [exact H| |].
    + unfold SpotOptimization.fallback_windows.
      constructor; [split; [reflexivity|left; reflexivity]|].
      constructor; [split; [reflexivity|right; reflexivity]|].
      constructor.
    + eapply map_windows_constants, Hmap.
  - constructor.
Qed.

(** X16.  One [null] among the [optimal_windows] of a successful reply
    makes the mapping throw: the windows on display are then those of
    the [catch] block, whatever the other windows of the reply are. *)
Theorem spot_null_window_shows_fallback_windows
    (formatTimeWindow : value -> value -> jsstring)
    (rq : request) (o : FetchOutcome) (v : SpotOptimization.View)
    (data : value) (elems : list value) :
  SpotOptimization.structured o = Some data ->
  SpotOptimization.isArray
    (SpotOptimization.field data (js "optimal_windows")) = Some elems ->
  In VNull elems ->
  SpotOptimization.spotWindows
    (SpotOptimization.settle formatTimeWindow rq o v)
  = SpotOptimization.fallback_windows.
Proof.
  intros Hs Ha Hin.
  assert (Hthrow : exists e,
             map_throwing (SpotOptimization.window_of formatTimeWindow) elems
             = Throw e).
  { clear Ha. induction elems as [|w elems IH]; [destruct Hin|].
    simpl. destruct Hin as [->|Hin]; [simpl; eauto|].
    destruct (SpotOptimization.window_of formatTimeWindow w); [|eauto].
    destruct (IH Hin) as [e ->]. eauto. }
  destruct Hthrow as [e0 Hthrow].
  revert Hs.
  unfold SpotOptimization.settle, SpotOptimization.fetchSpotData,
    try_catch_block, SpotOptimization.structured.
  unfold mbind, action_bind, and_then, eval.
  destruct o as [|[st stt [json|]]]; simpl; try discriminate.
  destruct json as [| |b|x|s0|l|props]; simpl; try discriminate.
  destruct (assoc (js "status") props) as [stv|]; simpl; [|discriminate].
  destruct (strict_eq_str stv (js "success")); simpl; [|discriminate].
  destruct (assoc (js "data") props) as [d|]; simpl; [|discriminate].
  destruct (ToBoolean d) eqn:Hd; simpl; [|discriminate].
  intros [= ->].
  destruct (use_data_facts formatTimeWindow data v Hd) as (_ & _ & Hw).
  rewrite Ha, Hthrow in Hw. destruct Hw as [Hn _].
  destruct (SpotOptimization.use_data formatTimeWindow data v)
    as [v' [[]|e]]; simpl in *; [discriminate|reflexivity].
Qed.

(** A reply with one good window and a [null]. *)
Lemma spot_null_window_shows_fallback_windows_witness :
  SpotOptimization.spotWindows
    (SpotOptimization.settle (fun _ _ => js "12:00 AM - 12:00 AM") Refresh
       Samples.spot_reply_with_null SpotOptimization.initial)
  = SpotOptimization.fallback_windows.
Proof.
  apply (spot_null_window_shows_fallback_windows
           (fun _ _ => js "12:00 AM - 12:00 AM") Refresh
           Samples.spot_reply_with_null SpotOptimization.initial
           Samples.spot_data_with_null
           [VObj [(js "spot_price_usd", VNum (lit 48 (-3)))]; VNull]).
  - reflexivity.
  - reflexivity.
  - right. left. reflexivity.
Defined.

(** The metrics of that reply are taken all the same. *)
Lemma spot_metric_is_new_or_previous_witness :
  SpotOptimization.costSavings
    (SpotOptimization.metrics
       (SpotOptimization.settle (fun _ _ => js "12:00 AM - 12:00 AM") Refresh
          Samples.spot_reply_with_null SpotOptimization.initial))
  = VNum (lit 80 0).
Proof.
  rewrite (proj1 (spot_metric_is_new_or_previous
                    (fun _ _ => js "12:00 AM - 12:00 AM") Refresh
                    Samples.spot_reply_with_null SpotOptimization.initial
                    Samples.spot_data_with_null eq_refl)).
  reflexivity.
Defined.

(** ** SustainabilityScore: what the request that throws leaves behind *)

Section Score.
Import SustainabilityScore.
Variable Number_toString : number -> jsstring.
Variable StringToNumber : jsstring -> number.

Local Abbreviation use_data :=
  (SustainabilityScore.use_data Number_toString StringToNumber).
Local Abbreviation settle :=
  (SustainabilityScore.settle Number_toString StringToNumber).
Local Abbreviation performance_of :=
  (SustainabilityScore.performance_of Number_toString StringToNumber).
Local Abbreviation ge :=
  (SustainabilityScore.ge Number_toString StringToNumber).

Lemma Get_optional_field (data : value) key :
  ToBoolean data = true ->
  Get_optional data key = Normal (SpotOptimization.field data key).
Proof. destruct data; simpl; try discriminate; reflexivity. Qed.

(** The block always ends with an exception; what it has set by then. *)
Lemma use_data_score_facts (data : value) (v : View) :
  ToBoolean data = true ->
  let sc := SpotOptimization.field data (js "sustainability_score") in
  let res := use_data data v in
  (exists e, snd res = Throw e)
  /\ categories (fst res) = categories v
  /\ overallScore (fst res) = or_value sc (overallScore v)
  /\ isLoading (fst res) = (if ToBoolean sc then false else isLoading v)
  /\ performanceText (fst res)
     = (if ToBoolean sc then fst (performance_of sc) else performanceText v).
Proof.
  intros Hd sc res. subst res. unfold SustainabilityScore.use_data.
  unfold mbind, action_bind, and_then, eval, or_value.
  rewrite (Get_field data _ Hd), !(Get_optional_field data _ Hd).
  fold sc. set (recs := SpotOptimization.field data (js "recommendations")).
  destruct (ToBoolean sc) eqn:Hsc; simpl;
    (destruct (if ToBoolean recs then SpotOptimization.isArray recs
               else None) as [elems|]; simpl;
     [destruct (map_throwing _ elems) as [ls|e]; simpl
     |rewrite ?Hsc; simpl]);
    eauto 10.
Qed.

(** What one request does to the view. *)
Lemma settle_score_cases rq o (v : View) :
  match SpotOptimization.structured o with
  | Some data =>
      ToBoolean data = true
      /\ settle rq o v = setIsLoading false (fst (use_data data v))
  | None =>
      settle rq o v = v \/ settle rq o v = setIsLoading false v
  end.
Proof.
  unfold SustainabilityScore.settle, SustainabilityScore.fetchScore,
    try_catch_block, SpotOptimization.structured.
  unfold mbind, action_bind, and_then, eval.
  destruct o as [|[st stt [json|]]]; simpl; auto.
  destruct json as [| |b|x|s0|l|props]; simpl; auto.
  destruct (assoc (js "status") props) as [stv|]; simpl; auto.
  destruct (strict_eq_str stv (js "success")); simpl; auto.
  destruct (assoc (js "data") props) as [data|]; simpl; auto.
  destruct (ToBoolean data) eqn:Hd; simpl; auto.
  split; [exact Hd|].
  destruct (use_data_score_facts data v Hd) as ([e He] & _).
  destruct (use_data data v) as [v' c]. simpl in *. subst c. reflexivity.
Qed.

Lemma settle_categories rq o (v : View) :
  categories (settle rq o v) = categories v.
Proof.
  pose proof (settle_score_cases rq o v) as H.
  destruct (SpotOptimization.structured o) as [data|].
  - destruct H as [Hd ->]. simpl.
    apply (use_data_score_facts data v Hd).
  - destruct H as [->| ->]; reflexivity.
Qed.




End Score.

(** X17.  The four category scores of the sustainability view never
    change from the 0 they start with: the code that would parse them
    comes after the read of an undeclared variable, which throws. *)
Theorem score_categories_never_change
    (Number_toString : number -> jsstring)
    (StringToNumber : jsstring -> number) (evs : list event) :
  SustainabilityScore.categories
    (view (SustainabilityScore.run Number_toString StringToNumber
             SustainabilityScore.mount evs))
  = SustainabilityScore.categories SustainabilityScore.initial.
Proof.
  unfold SustainabilityScore.run.
  apply (run_invariant
           (SustainabilityScore.settle Number_toString StringToNumber)
           (fun v => SustainabilityScore.categories v
                     = SustainabilityScore.categories
                         SustainabilityScore.initial)).
  - intros rq o v H. rewrite settle_categories. exact H.
  - reflexivity.
Qed.

(** X18.  A reply with a JSON object that is not a success with data
    (an error of the backend, say) leaves the whole view as it was, the
    loading state included: after such a reply at mount the view keeps
    showing its skeleton. *)
Theorem score_unsuccessful_reply_changes_nothing
    (Number_toString : number -> jsstring)
    (StringToNumber : jsstring -> number)
    (rq : request) (r : Response) (props : list (jsstring * value))
    (v : SustainabilityScore.View) :
  body r = Some (VObj props) ->
  SpotOptimization.structured (Responded r) = None ->
  SustainabilityScore.settle Number_toString StringToNumber rq
    (Responded r) v
  = v.
Proof.
  intros Hb. destruct r as [st stt b]. simpl in Hb. subst b.
  unfold SustainabilityScore.settle, SustainabilityScore.fetchScore,
    try_catch_block, SpotOptimization.structured.
  unfold mbind, action_bind, and_then, eval. simpl.
  destruct (assoc (js "status") props) as [stv|]; simpl; [|reflexivity].
  destruct (strict_eq_str stv (js "success")); simpl; [|reflexivity].
  destruct (assoc (js "data") props) as [data|]; simpl; [|reflexivity].
  destruct (ToBoolean data); simpl; [discriminate|reflexivity].
Qed.

(** The backend reports an error at mount. *)
Lemma score_unsuccessful_reply_changes_nothing_witness :
  SustainabilityScore.settle (fun _ => js "0") (fun _ => NaN) First
    (Responded Samples.error_response) SustainabilityScore.initial
  = SustainabilityScore.initial.
Proof.
  apply (score_unsuccessful_reply_changes_nothing
           (fun _ => js "0") (fun _ => NaN) First
           Samples.error_response Samples.error_props
           SustainabilityScore.initial);
    reflexivity.
Defined.

(** X19.  A successful reply with data always ends the loading state,
    with or without a score in the data: the block ends in the [catch]
    block, which clears it. *)
Theorem score_data_ends_loading
    (Number_toString : number -> jsstring)
    (StringToNumber : jsstring -> number)
    (rq : request) (o : FetchOutcome) (data : value)
    (v : SustainabilityScore.View) :
  SpotOptimization.structured o = Some data ->
  SustainabilityScore.isLoading
    (SustainabilityScore.settle Number_toString StringToNumber rq o v)
  = false.
Proof.
  intros H.
  pose proof (settle_score_cases Number_toString StringToNumber rq o v) as Hc.
  rewrite H in Hc. destruct Hc as [_ ->]. reflexivity.
Qed.

(** Data without a score. *)
Lemma score_data_ends_loading_witness :
  SustainabilityScore.isLoading
    (SustainabilityScore.settle (fun _ => js "0") (fun _ => NaN) First
       Samples.spot_reply_with_null SustainabilityScore.initial)
  = false.
Proof.
  apply (score_data_ends_loading (fun _ => js "0") (fun _ => NaN) First
           Samples.spot_reply_with_null Samples.spot_data_with_null
           SustainabilityScore.initial).
  reflexivity.
Defined.



(** ** FloatingChat: the card that goes with a reply *)

Section Cards.
Import ChatCards.
Variable Number_toString : number -> jsstring.
Variable toLowerCase : jsstring -> jsstring.

Local Abbreviation generateUIResponse :=
  (ChatCards.generateUIResponse Number_toString toLowerCase).

Lemma Get_optional_total (data : value) key :
  exists x, Get_optional data key = Normal x.
Proof. destruct data; simpl; eauto. Qed.

Lemma data_or_total (data : value) key fb :
  exists x, data_or data key fb = Normal x.
Proof.
  unfold data_or. destruct (Get_optional_total data key) as [x ->].
  simpl. eauto.
Qed.


End Cards.

(** X21.  When a request brings no reply, the card that goes with the
    query is filled as if the reply had carried empty data: every
    figure on it is a built-in default. *)
Theorem failed_request_card_shows_defaults
    (Number_toString : number -> jsstring)
    (toLowerCase : jsstring -> jsstring)
    (query : jsstring) (o : FetchOutcome) :
  no_reply o = true ->
  exists r,
    FloatingChat_callAgent Number_toString query o = Normal r
    /\ ChatCards.generateUIResponse Number_toString toLowerCase query (data r)
       = ChatCards.generateUIResponse Number_toString toLowerCase query
           (VObj []).
Proof.
  intros H.
  destruct (callAgent_no_reply Number_toString query o H) as [-> _].
  eexists. split; [reflexivity|]. reflexivity.
Qed.

(** A cost query while the network is down. *)
Lemma failed_request_card_shows_defaults_witness :
  exists r,
    FloatingChat_callAgent (fun _ => js "0") (js "Show me cost savings")
      Rejected = Normal r
    /\ ChatCards.generateUIResponse (fun _ => js "0")
         (map ChatCards.lower_ascii) (js "Show me cost savings") (data r)
       = ChatCards.generateUIResponse (fun _ => js "0")
           (map ChatCards.lower_ascii) (js "Show me cost savings") (VObj []).
Proof.
  apply (failed_request_card_shows_defaults (fun _ => js "0")
           (map ChatCards.lower_ascii) (js "Show me cost savings") Rejected).
  reflexivity.
Defined.

(** X22.  On the cost card a saving of 0 (or any other falsy value) in
    the data is not shown: the card shows 85.5 in its place. *)
Theorem zero_saving_shown_as_default
    (Number_toString : number -> jsstring)
    (toLowerCase : jsstring -> jsstring)
    (query : jsstring) (data x : value) :
  ChatCards.kind_of
    (ChatCards.generateUIResponse Number_toString toLowerCase query data)
  = Some ChatCards.Cost ->
  Get_optional data (js "cost_savings") = Normal x ->
  ToBoolean x = false ->
  ChatCards.generateUIResponse Number_toString toLowerCase query data
  = Normal (Some (ChatCards.CostSavingsCard (VNum (lit 855 (-1)))
                    (VNum (lit 2565 0)))).
Proof.
  intros Hk Hg Hx.
  assert (Hd : forall fb,
             ChatCards.data_or data (js "cost_savings") fb = Normal fb).
  { intros fb. unfold ChatCards.data_or. rewrite Hg. simpl.
    unfold or_value. rewrite Hx. reflexivity. }
  revert Hk. unfold ChatCards.generateUIResponse. rewrite !Hd.
  repeat match goal with
         | |- context [if ?b then _ else _] =>
             destruct b eqn:?; simpl
         end;
    repeat match goal with
           | |- context [ChatCards.data_or ?d ?k ?f] =>
               let y := fresh "y" in
               destruct (data_or_total d k f) as [y ->]; simpl
           end;
    try discriminate.
  reflexivity.
Qed.

(** The data say that nothing was saved. *)
Lemma zero_saving_shown_as_default_witness :
  ChatCards.generateUIResponse (fun _ => js "0") (map ChatCards.lower_ascii)
    (js "Show me cost savings")
    (VObj [(js "cost_savings", VNum (lit 0 0))])
  = Normal (Some (ChatCards.CostSavingsCard (VNum (lit 855 (-1)))
                    (VNum (lit 2565 0)))).
Proof.
  apply (zero_saving_shown_as_default (fun _ => js "0")
           (map ChatCards.lower_ascii) (js "Show me cost savings")
           (VObj [(js "cost_savings", VNum (lit 0 0))]) (VNum (lit 0 0)));
    vm_compute; reflexivity.
Defined.



(** ** IntegratedChat: the conversation *)

Section Conversation.
Import IntegratedChat.
Variable Number_toString : number -> jsstring.

Local Abbreviation step := (IntegratedChat.step Number_toString).
Local Abbreviation run := (IntegratedChat.run Number_toString).
Local Abbreviation finish :=
  (IntegratedChat.handleSend_finish Number_toString).

Lemma trim_start_blank (s : jsstring) :
  forallb is_white s = true -> trim_start s = [].
Proof.
  induction s as [|c s IH]; simpl; [reflexivity|].
  intros H. apply andb_true_iff in H as [Hc Hs]. rewrite Hc. auto.
Qed.

Lemma trim_start_nil_blank (s : jsstring) :
  trim_start s = [] -> forallb is_white s = true.
Proof.
  induction s as [|c s IH]; simpl; [reflexivity|].
  destruct (is_white c); [auto|discriminate].
Qed.

Lemma trim_start_suffix (s : jsstring) : trim_start s `suffix_of` s.
Proof.
  induction s as [|c s IH]; simpl; [reflexivity|].
  destruct (is_white c); [apply suffix_cons_r, IH|reflexivity].
Qed.

Lemma trim_start_head (s : jsstring) c t :
  trim_start s = c :: t -> is_white c = false.
Proof.
  induction s as [|x s IH]; simpl; [discriminate|].
  destruct (is_white x) eqn:E; [auto|]. intros [= -> _]. exact E.
Qed.

(** The test of [handleSend]: the trimmed input is empty exactly when
    the input is white space throughout. *)
Lemma trim_nil_iff (s : jsstring) :
  trim s = [] <-> forallb is_white s = true.
Proof.
  unfold trim. split.
  - intros H. apply (f_equal (@rev _)) in H. rewrite rev_involutive in H.
    simpl in H. apply trim_start_nil_blank in H.
    destruct (trim_start s) as [|c t] eqn:E;
      [apply trim_start_nil_blank, E|].
    exfalso. pose proof (trim_start_head _ _ _ E) as Hc.
    rewrite forallb_forall in H. specialize (H c).
    rewrite H in Hc; [discriminate|]. apply in_rev. rewrite rev_involutive.
    left. reflexivity.
  - intros H. rewrite (trim_start_blank s H). reflexivity.
Qed.

Lemma finish_cases query o now date (v : View) :
  exists answer,
    ToBoolean answer = true
    /\ finish query o now date v
       = setIsTyping false
           (setMessages
              (fun prev =>
                 prev ++ [ {| id := time_toString (now + 1);
                              content := answer; sender := Agent;
                              timestamp := date |} ]) v).
Proof.
  unfold IntegratedChat.handleSend_finish.
  destruct (integrated_callAgent_truthy Number_toString query o)
    as (answer & -> & Ha).
  exists answer. auto.
Qed.

Lemma count_from_app who l1 l2 :
  count_from who (l1 ++ l2) = (count_from who l1 + count_from who l2)%nat.
Proof. unfold count_from. rewrite List.filter_app, length_app. reflexivity. Qed.

Lemma run_chat_invariant (J : state -> Prop) :
  (forall st ev, J st -> J (step st ev)) ->
  forall evs st, J st -> J (run st evs).
Proof.
  intros Hstep. induction evs as [|ev evs IH]; intros st H; [exact H|].
  simpl. apply IH, Hstep, H.
Qed.

Lemma step_messages_prefix (st : state) (ev : event) :
  messages (view st) `prefix_of` messages (view (step st ev)).
Proof.
  destruct ev as [s|now date|i o now date|]; simpl.
  - destruct (mounted st); reflexivity.
  - destruct (mounted st); [|reflexivity].
    unfold handleSend_start. destruct (trim (input (view st))); [reflexivity|].
    simpl. apply prefix_app_r. reflexivity.
  - destruct (waiting st !! i) as [query|]; [|reflexivity]. simpl.
    destruct (mounted st); [|reflexivity].
    destruct (finish_cases query o now date (view st)) as (a & _ & ->).
    simpl. apply prefix_app_r. reflexivity.
  - reflexivity.
Qed.

Lemma step_mounted_back (st : state) (ev : event) :
  mounted (step st ev) = true -> mounted st = true.
Proof.
  destruct ev as [s|now date|i o now date|]; simpl.
  - destruct (mounted st) eqn:E; [reflexivity|]. rewrite E. discriminate.
  - destruct (mounted st) eqn:E; [reflexivity|]. rewrite E. discriminate.
  - destruct (waiting st !! i); auto.
  - discriminate.
Qed.

Lemma run_app (st : state) (evs1 evs2 : list event) :
  run st (evs1 ++ evs2) = run (run st evs1) evs2.
Proof. apply fold_left_app. Qed.

(** What holds of a mounted component holds after every run that leaves
    it mounted, when every step that leaves it mounted keeps it. *)
Lemma run_mounted_invariant (J : state -> Prop) :
  (forall st ev, mounted (step st ev) = true -> J st -> J (step st ev)) ->
  forall evs st, mounted (run st evs) = true -> J st -> J (run st evs).
Proof.
  intros Hstep evs. induction evs as [|ev evs IH] using rev_ind;
    intros st Hm H; [exact H|].
  rewrite run_app in *. simpl in *.
  apply Hstep; [exact Hm|]. apply IH; [|exact H].
  apply step_mounted_back in Hm. exact Hm.
Qed.

(** X24.  A send with nothing but white space in the input field (or
    with an empty field) does nothing at all: no message is added, the
    field is not cleared, no request is made; and a mounted component
    ignores a send in no other case. *)
Theorem blank_input_is_not_sent (st : state) (now date : N) :
  mounted st = true ->
  (step st (Send now date) = st
   <-> forallb is_white (input (view st)) = true).
Proof.
  intros Hm. simpl. rewrite Hm. unfold handleSend_start.
  rewrite <- trim_nil_iff.
  destruct (trim (input (view st))) as [|c t]; [tauto|].
  split; [|discriminate]. intros H. exfalso.
  apply (f_equal waiting) in H. simpl in H.
  apply (f_equal (@length _)) in H. rewrite length_app in H. simpl in H. lia.
Qed.

(** X25.  While the component is mounted, every question on display has
    its answer on display or its request still pending: the messages of
    the user are as many as the messages of the agent and the pending
    requests together. *)
Theorem questions_answered_or_pending (evs : list event) :
  mounted (run mount evs) = true ->
  count_from User (messages (view (run mount evs)))
  = (count_from Agent (messages (view (run mount evs)))
     + length (waiting (run mount evs)))%nat.
Proof.
  intros Hm.
  apply (run_mounted_invariant
           (fun st => count_from User (messages (view st))
                      = (count_from Agent (messages (view st))
                         + length (waiting st))%nat));
    [|exact Hm|reflexivity].
  clear. intros st ev Hm' H. pose proof (step_mounted_back _ _ Hm') as Hm.
  clear Hm'. destruct ev as [s|now date|i o now date|]; simpl.
  - rewrite Hm. exact H.
  - rewrite Hm. unfold handleSend_start.
    destruct (trim (input (view st))); [exact H|]. simpl.
    rewrite !count_from_app, length_app, H. simpl. unfold count_from. simpl.
    lia.
  - destruct (waiting st !! i) as [query|] eqn:E; [|exact H]. simpl.
    rewrite Hm.
    destruct (finish_cases query o now date (view st)) as (a & _ & ->).
    simpl. rewrite !count_from_app, H. unfold count_from at 2 4. simpl.
    pose proof (lookup_lt_Some _ _ _ E) as Hlt.
    rewrite length_delete by eauto. lia.
  - exact H.
Qed.

(** X26.  The conversation only grows at its end: whatever happens, the
    messages on display before are the first messages on display
    after, unchanged and in the same order. *)
Theorem conversation_is_append_only (st : state) (evs : list event) :
  messages (view st) `prefix_of` messages (view (run st evs)).
Proof.
  revert st. induction evs as [|ev evs IH]; intros st; [reflexivity|].
  simpl. etrans; [apply step_messages_prefix|apply IH].
Qed.

(** X27.  No message on display is empty: the content of every message
    of the conversation is truthy, the user's because a blank input is
    not sent, the agent's because [callAgent] replaces a falsy reply. *)
Theorem no_empty_message (evs : list event) :
  Forall (fun m => ToBoolean (content m) = true)
         (messages (view (run mount evs))).
Proof.
  apply (run_chat_invariant
           (fun st => Forall (fun m => ToBoolean (content m) = true)
                             (messages (view st))));
    [|constructor].
  clear. intros st ev H. destruct ev as [s|now date|i o now date|]; simpl.
  - destruct (mounted st); exact H.
  - destruct (mounted st); [|exact H]. unfold handleSend_start.
    destruct (trim (input (view st))) as [|c t] eqn:E; [exact H|]. simpl.
    apply Forall_app. split; [exact H|]. constructor; [|constructor]. simpl.
    destruct (input (view st)); [discriminate E|reflexivity].
  - destruct (waiting st !! i) as [query|]; [|exact H]. simpl.
    destruct (mounted st); [|exact H].
    destruct (finish_cases query o now date (view st)) as (a & Ha & ->).
    simpl. apply Forall_app. split; [exact H|]. constructor; [exact Ha|].
    constructor.
  - exact H.
Qed.

(** X28.  While the component is mounted and no request is pending, the
    typing indicator is off. *)
Theorem idle_chat_is_not_typing (evs : list event) :
  mounted (run mount evs) = true ->
  waiting (run mount evs) = [] ->
  isTyping (view (run mount evs)) = false.
Proof.
  intros Hm.
  apply (run_mounted_invariant
           (fun st => waiting st = [] -> isTyping (view st) = false));
    [|exact Hm|reflexivity].
  clear. intros st ev Hm' H. pose proof (step_mounted_back _ _ Hm') as Hm.
  clear Hm'. destruct ev as [s|now date|i o now date|]; simpl.
  - rewrite Hm. exact H.
  - rewrite Hm. unfold handleSend_start.
    destruct (trim (input (view st))); [exact H|]. simpl.
    intros E. destruct (waiting st); discriminate E.
  - destruct (waiting st !! i) as [query|] eqn:E; [|exact H]. simpl.
    rewrite Hm.
    destruct (finish_cases query o now date (view st)) as (a & _ & ->).
    reflexivity.
  - exact H.
Qed.

(** X29.  The answer to any one request turns the typing indicator
    off, also when other requests are still pending. *)
Theorem any_reply_ends_typing (st : state) (i : nat) (query : jsstring)
    (o : FetchOutcome) (now date : N) :
  mounted st = true ->
  waiting st !! i = Some query ->
  isTyping (view (step st (Reply i o now date))) = false
  /\ length (waiting (step st (Reply i o now date)))
     = pred (length (waiting st)).
Proof.
  intros Hm E. simpl. rewrite E, Hm. simpl.
  destruct (finish_cases query o now date (view st)) as (a & _ & ->).
  split; [reflexivity|]. rewrite length_delete by eauto. lia.
Qed.

End Conversation.

Lemma blank_input_is_not_sent_witness :
  IntegratedChat.step (fun _ => [])
    {| IntegratedChat.view :=
         IntegratedChat.setInput (js "  ") IntegratedChat.initial;
       IntegratedChat.mounted := true; IntegratedChat.waiting := [] |}
    (IntegratedChat.Send 1700000000000 1700000000000)
  = {| IntegratedChat.view :=
         IntegratedChat.setInput (js "  ") IntegratedChat.initial;
       IntegratedChat.mounted := true; IntegratedChat.waiting := [] |}.
Proof.
  apply (blank_input_is_not_sent (fun _ => [])); reflexivity.
Defined.

Lemma questions_answered_or_pending_witness :
  let evs := [IntegratedChat.Change (js "hello");
              IntegratedChat.Send 1700000000000 1700000000000;
              IntegratedChat.Change (js "and the cost?");
              IntegratedChat.Send 1700000000500 1700000000500;
              IntegratedChat.Reply 1 Rejected 1700000000900 1700000000900] in
  IntegratedChat.count_from IntegratedChat.User
    (IntegratedChat.messages
       (IntegratedChat.view
          (IntegratedChat.run (fun _ => []) IntegratedChat.mount evs)))
  = 2%nat
  /\ length (IntegratedChat.waiting
               (IntegratedChat.run (fun _ => []) IntegratedChat.mount evs))
     = 1%nat.
Proof.
  intros evs.
  pose proof (questions_answered_or_pending (fun _ => []) evs eq_refl) as H.
  split; [rewrite H|]; reflexivity.
Defined.

Lemma idle_chat_is_not_typing_witness :
  IntegratedChat.isTyping
    (IntegratedChat.view
       (IntegratedChat.run (fun _ => []) IntegratedChat.mount
          [IntegratedChat.Change (js "hello");
           IntegratedChat.Send 1700000000000 1700000000000;
           IntegratedChat.Reply 0 Rejected 1700000000900 1700000000900]))
  = false.
Proof.
  apply (idle_chat_is_not_typing (fun _ => [])); reflexivity.
Defined.

Lemma any_reply_ends_typing_witness :
  let st := IntegratedChat.run (fun _ => []) IntegratedChat.mount
              [IntegratedChat.Change (js "hello");
               IntegratedChat.Send 1700000000000 1700000000000;
               IntegratedChat.Change (js "and the cost?");
               IntegratedChat.Send 1700000000500 1700000000500] in
  IntegratedChat.isTyping
    (IntegratedChat.view
       (IntegratedChat.step (fun _ => []) st
          (IntegratedChat.Reply 0 Rejected 1700000000900 1700000000900)))
  = false
  /\ length
       (IntegratedChat.waiting
          (IntegratedChat.step (fun _ => []) st
             (IntegratedChat.Reply 0 Rejected 1700000000900 1700000000900)))
     = 1%nat.
Proof.
  intros st.
  apply (any_reply_ends_typing (fun _ => []) st 0 (js "hello"));
    reflexivity.
Defined.
